(** * Time-Management-Agent: the calendar CLI

    A shallow embedding of [calendar_cli/profile.py],
    [calendar_cli/system_prompt.py] and the [ask] and [quick_create]
    commands of [calendar_cli/cli.py], followed by the properties of the
    conversation loop, the prompt composition and the quick-create command.

    A Python [str] is modelled as a [string]: its text encoded in UTF-8.
    White space is that of Python, on the whole of Unicode; the case of
    letters is changed on the ASCII range, which is all the comparisons
    of the program can see: no character outside ASCII has a lower case
    written with the letters of [exit], [quit] and [q] only, or an upper
    case written with those of [UTC] only.
    [os.environ] and the event payload, which are dictionaries keyed by
    strings, are [gmap string string]. *)

From Stdlib Require Import Ascii String.
From stdpp Require Import gmap strings list fin_maps pretty.

Local Open Scope string_scope.
Local Open Scope list_scope.

(** ** Python built-ins used by the program *)

Module Py.

(** [str.isspace] on a character of one byte: TAB, LF, VT, FF, CR, the
    four separators FS, GS, RS, US, and the space. *)
Definition isspace (c : ascii) : bool :=
  let n := nat_of_ascii c in
  (((9 <=? n) && (n <=? 13)) || ((28 <=? n) && (n <=? 31)) || (n =? 32))%nat.

Definition lower_char (c : ascii) : ascii :=
  let n := nat_of_ascii c in
  if ((65 <=? n) && (n <=? 90))%nat then ascii_of_nat (n + 32) else c.

Definition upper_char (c : ascii) : ascii :=
  let n := nat_of_ascii c in
  if ((97 <=? n) && (n <=? 122))%nat then ascii_of_nat (n - 32) else c.

Fixpoint map_chars (f : ascii -> ascii) (s : string) : string :=
  match s with
  | EmptyString => EmptyString
  | String c r => String (f c) (map_chars f r)
  end.

(** [s.lower()] and [s.upper()]. *)
Definition lower : string -> string := map_chars lower_char.
Definition upper : string -> string := map_chars upper_char.

(** Truth value of a string, of a list and of an optional value:
    [None], the empty string, [[]] and [{}] are false. *)
Definition truthy (s : string) : bool :=
  match s with EmptyString => false | String _ _ => true end.

Definition truthy_list {A} (l : list A) : bool :=
  match l with [] => false | _ :: _ => true end.

Definition truthy_opt {A} (t : A -> bool) (o : option A) : bool :=
  match o with Some a => t a | None => false end.

(** The white space of two bytes: U+0085 and U+00A0. *)
Definition space2 (c d : ascii) : bool :=
  let '(m, n) := (nat_of_ascii c, nat_of_ascii d) in
  ((m =? 194) && ((n =? 133) || (n =? 160)))%nat.

(** The white space of three bytes: U+1680, U+2000 to U+200A, U+2028,
    U+2029, U+202F, U+205F and U+3000. *)
Definition space3 (c d e : ascii) : bool :=
  let '(m, n, k) := (nat_of_ascii c, nat_of_ascii d, nat_of_ascii e) in
  (((m =? 225) && (n =? 154) && (k =? 128))
   || ((m =? 226) && (n =? 128)
       && (((128 <=? k) && (k <=? 138)) || (k =? 168) || (k =? 169) || (k =? 175)))
   || ((m =? 226) && (n =? 129) && (k =? 159))
   || ((m =? 227) && (n =? 128) && (k =? 128)))%nat.

(** A byte that continues a character in UTF-8. *)
Definition tail_byte (d : ascii) : bool :=
  let n := nat_of_ascii d in ((128 <=? n) && (n <=? 191))%nat.

(** The text after its first character, when that is white space. *)
Definition skip_space (s : string) : option string :=
  match s with
  | EmptyString => None
  | String c r =>
      if isspace c then Some r
      else match r with
           | EmptyString => None
           | String d r1 =>
               if space2 c d then Some r1
               else match r1 with
                    | EmptyString => None
                    | String e r2 => if space3 c d e then Some r2 else None
                    end
           end
  end.

(** [s.lstrip()]: drop the leading white space, character by character. *)
Fixpoint lstrip (s : string) : string :=
  match s with
  | EmptyString => EmptyString
  | String c r =>
      if isspace c then lstrip r
      else match r with
           | EmptyString => s
           | String d r1 =>
               if space2 c d then lstrip r1
               else match r1 with
                    | EmptyString => s
                    | String e r2 => if space3 c d e then lstrip r2 else s
                    end
           end
  end.

(** [s.rstrip()]: the text is cut where only white space is left. *)
Fixpoint rstrip (s : string) : string :=
  match s with
  | EmptyString => EmptyString
  | String c r => if truthy (lstrip s) then String c (rstrip r) else EmptyString
  end.

(** [s.strip()]. *)
Definition strip (s : string) : string := rstrip (lstrip s).

(** [sep.join(parts)]. *)
Definition join (sep : string) (parts : list string) : string :=
  String.concat sep parts.

(** The line feed, written [\n] in the source. *)
Definition LF : string := String (ascii_of_nat 10) EmptyString.

(** [a or b] where [a] may be [None]: the first operand when it is
    true, else the second. *)
Definition or_opt (a b : option string) : option string :=
  if truthy_opt truthy a then a else b.

Definition or_else (a : option string) (b : string) : string :=
  match a with
  | Some s => if truthy s then s else b
  | None => b
  end.

End Py.

(** ** Exceptions and the world the program runs in *)

(** The exceptions the modelled code can meet. All of them derive from
    [Exception]; [typer.Exit] carries the exit code of the process. *)
Inductive exn : Type :=
| OSError
| UnicodeDecodeError
| YAMLError
| ValidationError
| ValueError
| ZoneInfoNotFoundError
| IndexError
| EOFError
| RuntimeException (what : string)
| MarkupError (message : string)
| Exit (code : Z).

Inductive result (A : Type) : Type :=
| Ok (a : A)
| Raise (e : exn).

Arguments Ok {A} a.
Arguments Raise {A} e.

(** What a path holds: [os.path.exists] is false; the path exists but
    [open] or [read] raises; or [read] returns a text. *)
Inductive file_state : Type :=
| Missing
| Unreadable (e : exn)
| Holds (text : string).

Inductive fs_op : Type :=
| FsExists (path : string)
| FsOpen (path : string).

(** What [console.print] and [console.rule] are handed, once rich has
    accepted it: the terminal, item by item. A text is kept as the
    program wrote it, with its markup. *)
Inductive console_item : Type :=
| Line (text : string)
| PanelFit (body title border_style : string)
| Rule (title : string)
| Banner.

(** [profile.py], class [UserProfile]. A [Dict[str, str]] keeps its
    insertion order, which [items()] follows: an association list. *)
Record UserProfile : Type := mkUserProfile {
  timezone : option string;
  workdays : option (list string);
  working_hours : option (list (string * string));
  lunch : option string;
  no_meetings : option (list string);
  preferred_deep_work : option (list string);
  avoid_times : option (list string);
  notes : option string;
}.

(** The libraries and services the program calls: PyYAML and pydantic,
    [datetime], the agent runtime, the calendar tool and rich.
    [rich_error text] is the message of the MarkupError that
    [console.print] raises on a text it reads as markup (a closing tag
    that closes nothing), if it raises one. *)
Class External : Type := {
  yaml_value : Type;
  yaml_safe_load : string -> result yaml_value;
  yaml_truthy : yaml_value -> bool;
  yaml_empty_dict : yaml_value;
  model_validate : yaml_value -> result UserProfile;
  datetime : Type;
  strftime : datetime -> string -> string;
  strptime : string -> string -> option datetime;
  runtime_message : Type;
  getattr_content : runtime_message -> string;
  str_runtime_message : runtime_message -> string;
  repr_tuple : string -> string -> string;
  tool_result : Type;
  str_tool_result : tool_result -> string;
  rich_error : string -> option string;
}.

(** An entry of the conversation list: a [(role, content)] tuple built by
    the CLI, or a message object handed back by the agent runtime. *)
Inductive message `{External} : Type :=
| Tuple (role content : string)
| Obj (m : runtime_message).

(** The state of the machine and of the services around it. The first
    nine fields are what the program finds; the last four are logs,
    oldest entry first, of what the program did. [executor_error] and
    [tool_error] are the exceptions of [build_agent_executor()] and of
    [CalendarCreateEvent()], if they raise. [agent_stream] and
    [create_event] answer from the history of earlier calls and the
    current argument. *)
Record World `{External} : Type := mkWorld {
  environ : gmap string string;
  fs : string -> file_state;
  zone_now : string -> result datetime;
  local_now : datetime;
  utc_now : datetime;
  executor_error : option exn;
  agent_stream : list (list message) -> list message -> result (list (list message));
  tool_error : option exn;
  create_event : list (gmap string string) -> gmap string string -> result tool_result;
  console : list console_item;
  fs_log : list fs_op;
  submissions : list (list message);
  tool_calls : list (gmap string string);
}.

Section Effects.
Context `{External}.

Definition with_console (w : World) (c : list console_item) : World :=
  mkWorld _ (environ w) (fs w) (zone_now w) (local_now w) (utc_now w)
    (executor_error w) (agent_stream w) (tool_error w) (create_event w) c (fs_log w) (submissions w) (tool_calls w).

Definition with_fs_log (w : World) (l : list fs_op) : World :=
  mkWorld _ (environ w) (fs w) (zone_now w) (local_now w) (utc_now w)
    (executor_error w) (agent_stream w) (tool_error w) (create_event w) (console w) l (submissions w) (tool_calls w).

Definition with_submissions (w : World) (l : list (list message)) : World :=
  mkWorld _ (environ w) (fs w) (zone_now w) (local_now w) (utc_now w)
    (executor_error w) (agent_stream w) (tool_error w) (create_event w) (console w) (fs_log w) l (tool_calls w).

Definition with_tool_calls (w : World) (l : list (gmap string string)) : World :=
  mkWorld _ (environ w) (fs w) (zone_now w) (local_now w) (utc_now w)
    (executor_error w) (agent_stream w) (tool_error w) (create_event w) (console w) (fs_log w) (submissions w) l.

(** A computation returns or raises, and leaves a world behind in both
    cases: what was printed before an exception stays printed. *)
Definition M (A : Type) : Type := World -> result A * World.

#[export] Instance M_ret : MRet M := fun A a w => (Ok a, w).

#[export] Instance M_bind : MBind M := fun A B f c w =>
  match c w with
  | (Ok a, w') => f a w'
  | (Raise e, w') => (Raise e, w')
  end.

Definition raise {A} (e : exn) : M A := fun w => (Raise e, w).

(** [try: body except <handled>: handler]. *)
Definition try_except {A} (body : M A) (handled : exn -> bool) (handler : M A) : M A :=
  fun w =>
    match body w with
    | (Ok a, w') => (Ok a, w')
    | (Raise e, w') => if handled e then handler w' else (Raise e, w')
    end.

(** Every exception of the model is an [Exception]; [UnicodeDecodeError]
    is a [ValueError]. *)
Definition is_Exception (e : exn) : bool := true.

Definition is_ValueError (e : exn) : bool :=
  match e with
  | ValueError | UnicodeDecodeError => true
  | _ => false
  end.

Definition lift {A} (r : result A) : M A := fun w => (r, w).

(** [console.print] of something whose texts are constants of the
    program, all of them markup that rich accepts. *)
Definition console_print (item : console_item) : M unit :=
  fun w => (Ok tt, with_console w (console w ++ [item])).

(** [console.print] of something made from a text that comes from
    outside: rich reads the text as markup, and raises when it cannot. *)
Definition console_print_text (text : string) (item : console_item) : M unit :=
  fun w =>
    match rich_error text with
    | Some message => (Raise (MarkupError message), w)
    | None => (Ok tt, with_console w (console w ++ [item]))
    end.

Definition os_getenv (key : string) : M (option string) :=
  fun w => (Ok (environ w !! key), w).

Definition os_getenv_default (key fallback : string) : M string :=
  fun w => (Ok (default fallback (environ w !! key)), w).

Definition os_path_exists (path : string) : M bool :=
  fun w =>
    (Ok (match fs w path with Missing => false | _ => true end),
     with_fs_log w (fs_log w ++ [FsExists path])).

(** [with open(path, "r", encoding="utf-8") as f: f.read()]. *)
Definition open_read (path : string) : M string :=
  fun w =>
    let w' := with_fs_log w (fs_log w ++ [FsOpen path]) in
    match fs w path with
    | Missing => (Raise OSError, w')
    | Unreadable e => (Raise e, w')
    | Holds text => (Ok text, w')
    end.

End Effects.

(** ** profile.py *)

Module Profile.
Section Profile.
Context `{External}.

Definition DEFAULT_PROFILE_ENV_KEY : string := "CALENDAR_CLI_PROFILE".
Definition DEFAULT_PROFILE_PATH : string := "user_profile.yaml".

Definition get_default_profile_path : M string :=
  os_getenv_default DEFAULT_PROFILE_ENV_KEY DEFAULT_PROFILE_PATH.

(** [yaml.safe_load(f) or {}] followed by [UserProfile.model_validate]. *)
Definition parse_profile (text : string) : M UserProfile :=
  data ← lift (yaml_safe_load text);
  let data := if yaml_truthy data then data else yaml_empty_dict in
  lift (model_validate data).

Definition load_user_profile (path : option string) : M (option UserProfile) :=
  default_path ← get_default_profile_path;
  let target_path := Py.or_else path default_path in
  present ← os_path_exists target_path;
  if negb present then mret None
  else
    try_except
      (text ← open_read target_path;
       profile ← parse_profile text;
       mret (Some profile))
      is_Exception
      (mret None).

Definition HEADER : string := "Kullanıcı Profili:".

(** [if value: lines.append(render(value))] for an optional field. *)
Definition append_if {A} (t : A -> bool) (o : option A) (render : A -> string)
    (lines : list string) : list string :=
  match o with
  | Some a => if t a then lines ++ [render a] else lines
  | None => lines
  end.

Definition render_hours (items : list (string * string)) : string :=
  "- Çalışma saatleri: " +:+
  Py.join "; " (map (fun '(d, w) => d +:+ ": " +:+ w) items).

(** The list [lines] of [summarize_profile_for_system] when it returns. *)
Definition summary_lines (profile : UserProfile) : list string :=
  let lines := [HEADER] in
  let lines := append_if Py.truthy (timezone profile)
                 (fun tz => "- Zaman dilimi: " +:+ tz) lines in
  let lines := append_if Py.truthy_list (workdays profile)
                 (fun days => "- Çalışma günleri: " +:+ Py.join ", " days) lines in
  let lines := append_if Py.truthy_list (working_hours profile) render_hours lines in
  let lines := append_if Py.truthy (lunch profile)
                 (fun l => "- Öğle arası: " +:+ l) lines in
  let lines := append_if Py.truthy_list (no_meetings profile)
                 (fun l => "- Toplantı kaçınma: " +:+ Py.join "; " l) lines in
  let lines := append_if Py.truthy_list (preferred_deep_work profile)
                 (fun l => "- Derin odak tercihleri: " +:+ Py.join "; " l) lines in
  let lines := append_if Py.truthy_list (avoid_times profile)
                 (fun l => "- Kaçınılacak saatler: " +:+ Py.join "; " l) lines in
  lines.

Definition summarize_profile_for_system (profile : UserProfile) : string :=
  Py.join Py.LF (summary_lines profile).

End Profile.
End Profile.

(** ** system_prompt.py *)

Module SystemPrompt.
Section SystemPrompt.
Context `{External}.

Definition DEFAULT_SYSTEM_PROMPT_ENV_KEY : string := "CALENDAR_CLI_SYSTEM_PROMPT".
Definition DEFAULT_SYSTEM_PROMPT_PATH : string := "system_prompt.md".

Definition get_default_system_prompt_path : M string :=
  os_getenv_default DEFAULT_SYSTEM_PROMPT_ENV_KEY DEFAULT_SYSTEM_PROMPT_PATH.

Definition load_system_prompt (path : option string) : M (option string) :=
  default_path ← get_default_system_prompt_path;
  let target_path := Py.or_else path default_path in
  present ← os_path_exists target_path;
  if negb present then mret None
  else
    try_except
      (text ← open_read target_path; mret (Some text))
      is_Exception
      (mret None).

End SystemPrompt.
End SystemPrompt.

(** ** cli.py *)

Module Cli.
Section Cli.
Context `{External}.

Definition require_google_api_key : M unit :=
  key ← os_getenv "GOOGLE_API_KEY";
  if negb (Py.truthy_opt Py.truthy key) then
    console_print (Line "[bold red]GOOGLE_API_KEY not set.[/bold red]");;
    console_print (Line "Set it in your environment or in a .env file.");;
    raise (Exit 1)
  else mret tt.

(** *** The [ask] command *)

(** The fixed part of [system_instructions], lines 117 to 134. *)
Definition ROLE_AND_POLICY : string :=
  "Rol: Sen, insan biyolojisi, sirkadiyen ritim, nörobilim, ergonomi ve üretkenlik konularında uzman " +:+
  "bir Zaman Yönetimi Danışmanı ve takvim ajanısın. Amaç: Kullanıcının talebini en kısa ve net şekilde " +:+
  "yanıtlamak ve gerektiğinde takvim üzerinde güvenli işlemler yapmak (oluştur/ara/güncelle/taşı/sil). " +:+
  "Çakışmaları ve kısıtları kontrol et; izinsiz/yıkıcı değişiklik yapma." +:+
  Py.LF +:+
  Py.LF +:+
  "Varsayılan iletişim tarzı: Soruyu doğrudan yanıtla; gereksiz tavsiye ve uzun açıklamalardan kaçın. " +:+
  "Yanıt sonunda yalnızca şu soruyu sor: 'Öneri ve kısa bilimsel açıklama eklememi ister misiniz? (E/H)'. " +:+
  "Kullanıcı 'E' derse kısaca öneriler + kısa gerekçe ekle; 'H' derse ekleme." +:+
  Py.LF +:+
  Py.LF +:+
  "Planlama ilkeleri (iç kurallar):" +:+
  Py.LF +:+
  "- Biyolojik saat: 09:00–11:00 ve 16:00–18:00 zihinsel zirve; ~14:00 ve geç saatlerde odak azalır." +:+
  Py.LF +:+
  "- Zaman yönetiminin 3 boyutu: Planlama (önemli işleri zirve saatlere koy), Tutum (zaman sınırlı; erteleme), " +:+
  "Tuzaklar (gereksiz toplantı/habersiz ziyaret/sosyal medya; gerektiğinde 'hayır' de)." +:+
  Py.LF +:+
  "- Mola ve sağlık: 20-20-20 göz kuralı; 60–90 dk’da bir 5–10 dk aktif mola; postür değişikliği/esneme." +:+
  Py.LF +:+
  "- Süreç: Günlük zaman kütüğü ile analiz → önem–aciliyet matrisi → uygula → gün sonunda sapmaları değerlendir." +:+
  Py.LF +:+
  "- Görev yerleşimi: Yüksek odak işler zirvede; rutin işler düşük enerji saatlerinde; yaratıcı işler sabah erken " +:+
  "veya akşam sakin saatlerde (kişisel ritme bağlı)." +:+
  Py.LF +:+
  "- Boş zaman verilirse uygun görevlerle doldur; verilmezse alternatif zaman pencereleri sun." +:+
  Py.LF +:+
  Py.LF +:+
  "Çıktı davranışı: Kullanıcı açıkça 'günlük plan' isterse 'Saat Bazlı Görev Planı'nı üret. " +:+
  "Mola/Egzersiz, Göz/Postür, Zorluk Sırası, Bilimsel Açıklama bölümlerini yalnızca kullanıcı 'E' yanıtını verdikten sonra ekle." +:+
  Py.LF +:+
  Py.LF.

Definition STAMP_FORMAT : string := "%Y-%m-%d %H:%M:%S %Z%z".

(** [datetime.now(ZoneInfo(name))], [datetime.now().astimezone()] and
    [datetime.now(timezone.utc)]. *)
Definition datetime_now_zone (name : string) : M datetime :=
  fun w => (zone_now w name, w).

Definition datetime_now_local : M datetime :=
  fun w => (Ok (local_now w), w).

Definition datetime_now_utc : M datetime :=
  fun w => (Ok (utc_now w), w).

(** The value of [profile_note], lines 111 to 113. *)
Definition profile_note (user_profile : option UserProfile) : string :=
  match user_profile with
  | Some p => Py.LF +:+ Py.LF +:+ Profile.summarize_profile_for_system p
  | None => ""
  end.

(** The first value of [system_instructions], lines 116 to 138. *)
Definition generated_instructions (now_local now_utc : datetime)
    (profile_note : string) : string :=
  ROLE_AND_POLICY +:+
  "Şu anki tarih-saat (yerel): " +:+ strftime now_local STAMP_FORMAT +:+ Py.LF +:+
  "Şu anki tarih-saat (UTC):   " +:+ strftime now_utc STAMP_FORMAT +:+
  profile_note.

(** Lines 139 to 141: an external prompt goes in front. *)
Definition prepend_external (external_prompt : option string)
    (system_instructions : string) : string :=
  match external_prompt with
  | Some ep =>
      if Py.truthy ep
      then Py.strip ep +:+ Py.LF +:+ Py.LF +:+ system_instructions
      else system_instructions
  | None => system_instructions
  end.

(** Lines 99 to 108: the local time, in the zone of the profile when it
    names one that [ZoneInfo] knows. *)
Definition resolve_now_local (user_profile : option UserProfile) : M datetime :=
  let profile_tz_name :=
    match user_profile with
    | Some p => Py.or_opt (timezone p) None
    | None => None
    end in
  try_except
    (match profile_tz_name with
     | Some name => datetime_now_zone name
     | None => datetime_now_local
     end)
    is_Exception
    datetime_now_local.

(** Lines 97 to 141 of [ask]: the system message of the conversation. *)
Definition ask_system_instructions : M string :=
  user_profile ← Profile.load_user_profile None;
  now_local ← resolve_now_local user_profile;
  now_utc ← datetime_now_utc;
  let profile_note := profile_note user_profile in
  external_prompt ← SystemPrompt.load_system_prompt None;
  let system_instructions := generated_instructions now_local now_utc profile_note in
  mret (prepend_external external_prompt system_instructions).

(** [rich]'s [Prompt.ask(..., default=d)] on the line the user types: an
    empty line gives [d], any other line comes back stripped; the end of
    the input raises. *)
Definition prompt_response (fallback raw : string) : string :=
  if Py.truthy raw then Py.strip raw else fallback.

Definition Prompt_ask (fallback : string) (lines : list string) : M (string * list string) :=
  match lines with
  | [] => raise EOFError
  | raw :: rest => mret (prompt_response fallback raw, rest)
  end.

(** [getattr(message, "content", None) or str(message)]. *)
Definition message_text (m : message) : string :=
  match m with
  | Tuple role content => repr_tuple role content
  | Obj r =>
      let content := getattr_content r in
      if Py.truthy content then content else str_runtime_message r
  end.

(** [agent.stream({"messages": messages}, stream_mode="values")]: one
    submission to the runtime; an event is the value of its ["messages"]. *)
Definition stream (messages : list message) : M (list (list message)) :=
  fun w =>
    (agent_stream w (submissions w) messages,
     with_submissions w (submissions w ++ [messages])).

(** [str(message)]. *)
Definition str_message (m : message) : string :=
  match m with
  | Tuple role content => repr_tuple role content
  | Obj r => str_runtime_message r
  end.

(** Lines 152 to 156: the panel, and the bare text when the panel fails. *)
Definition show_message (message : message) : M unit :=
  try_except
    (let content := message_text message in
     console_print_text content (PanelFit content "" ""))
    is_Exception
    (console_print_text (str_message message) (Line (str_message message))).

(** The [for event in events] loop, lines 149 to 156;
    [event["messages"][-1]] is outside the [try]. *)
Fixpoint show_events (events : list (list message))
    (last_messages : option (list message)) : M (option (list message)) :=
  match events with
  | [] => mret last_messages
  | event :: rest =>
      match last event with
      | None => raise IndexError
      | Some message =>
          show_message message;;
          show_events rest (Some event)
      end
  end.

(** Lines 147 to 159: submit, show, and adopt the list of the last event. *)
Definition dispatch (messages : list message) : M (list message) :=
  events ← stream messages;
  last_messages ← show_events events None;
  mret (match last_messages with Some lm => lm | None => messages end).

Definition EXIT_WORDS : gset string := {[ "exit"; "quit"; "q" ]}.

Inductive loop_control : Type :=
| Break
| Continue (messages : list message).

(** Lines 161 to 166, from the answer of [Prompt.ask] on. *)
Definition on_answer (messages : list message) (answer : string) : loop_control :=
  let user_input := Py.strip answer in
  if bool_decide (Py.lower user_input ∈ EXIT_WORDS) then Break
  else if negb (Py.truthy user_input) then Continue messages
  else Continue (messages ++ [Tuple "user" user_input]).

(** The [while True] loop, lines 146 to 166, on the lines still to be
    typed. One line is read per round. *)
Fixpoint ask_loop (lines : list string) (messages : list message) : M unit :=
  messages ← dispatch messages;
  match lines with
  | [] => raise EOFError
  | raw :: rest =>
      match on_answer messages (prompt_response "" raw) with
      | Break => mret tt
      | Continue messages => ask_loop rest messages
      end
  end.

Definition DEFAULT_PROMPT : string :=
  "Create a green event for tomorrow 10:00-10:30 named Standup".

(** Line 92, [agent = build_agent_executor()]: the toolkit and the chat
    model are built; the executor is the [agent_stream] of the world. *)
Definition build_agent_executor : M unit :=
  fun w =>
    match executor_error w with
    | Some e => (Raise e, w)
    | None => (Ok tt, w)
    end.

(** The [ask] command; [lines] is what the user types at the prompts.
    The banner is one item of the terminal, whichever branch draws it. *)
Definition ask (prompt : option string) (lines : list string) : M unit :=
  require_google_api_key;;
  console_print Banner;;
  build_agent_executor;;
  '(prompt, lines) ←
    (match prompt with
     | Some p => if Py.truthy p then mret (p, lines) else Prompt_ask DEFAULT_PROMPT lines
     | None => Prompt_ask DEFAULT_PROMPT lines
     end);
  system_instructions ← ask_system_instructions;
  console_print (Rule "Agent");;
  ask_loop lines [Tuple "system" system_instructions; Tuple "user" prompt].

(** *** The [quick-create] command *)

Definition DATETIME_FORMAT : string := "%Y-%m-%d %H:%M".

(** The body of [for dt in (start, end)], lines 185 to 189. *)
Definition validate_datetime (dt : string) : M unit :=
  try_except
    (match strptime dt DATETIME_FORMAT with
     | Some _ => mret tt
     | None => raise ValueError
     end)
    is_ValueError
    (let text := "[red]Invalid datetime format:[/red] " +:+ dt +:+
                 " (expected YYYY-MM-DD HH:MM)" in
     console_print_text text (Line text);;
     raise (Exit 1)).

Fixpoint for_each {A} (body : A -> M unit) (items : list A) : M unit :=
  match items with
  | [] => mret tt
  | x :: rest => body x;; for_each body rest
  end.

(** Line 193: CLI argument, then profile, then environment, then default. *)
Definition chosen_tz (opt_timezone : option string) (pf : option UserProfile)
    (env_tz : string) : string :=
  Py.or_else
    (Py.or_opt opt_timezone
       (match pf with Some p => timezone p | None => None end))
    env_tz.

(** Lines 195 to 197; [chosen_tz] is always a [str] here. *)
Definition normalize_tz (chosen_tz : string) : string :=
  let tz := Py.strip chosen_tz in
  if String.eqb (Py.upper tz) "UTC" then "Etc/UTC" else tz.

Definition set_if (key : string) (value : option string)
    (payload : gmap string string) : gmap string string :=
  match value with
  | Some v => if Py.truthy v then <[key := v]> payload else payload
  | None => payload
  end.

(** Lines 199 to 210. *)
Definition build_payload (summary start end_ tz : string)
    (location description color_id : option string) : gmap string string :=
  let payload : gmap string string :=
    <["summary" := summary]>
      (<["start_datetime" := start +:+ ":00"]>
        (<["end_datetime" := end_ +:+ ":00"]>
          (<["timezone" := tz]> ∅))) in
  let payload := set_if "location" location payload in
  let payload := set_if "description" description payload in
  let payload := set_if "color_id" color_id payload in
  payload.

(** Line 212, [tool = CalendarCreateEvent()]. *)
Definition CalendarCreateEvent : M unit :=
  fun w =>
    match tool_error w with
    | Some e => (Raise e, w)
    | None => (Ok tt, w)
    end.

(** Line 213, [tool.invoke(payload)]: one call to the calendar. *)
Definition tool_invoke (payload : gmap string string) : M tool_result :=
  fun w =>
    (create_event w (tool_calls w) payload,
     with_tool_calls w (tool_calls w ++ [payload])).

Definition quick_create (summary start end_ : string)
    (opt_timezone location description color_id : option string) : M unit :=
  require_google_api_key;;
  for_each validate_datetime [start; end_];;
  pf ← Profile.load_user_profile None;
  env_tz ← os_getenv_default "CLI_DEFAULT_TIMEZONE" "Etc/UTC";
  let tz := normalize_tz (chosen_tz opt_timezone pf env_tz) in
  let payload := build_payload summary start end_ tz location description color_id in
  CalendarCreateEvent;;
  result ← tool_invoke payload;
  console_print_text (str_tool_result result)
    (PanelFit (str_tool_result result) "Create Event" "green").

End Cli.
End Cli.

(** ** What the loaders find, read off the world *)

Section Stored.
Context `{External}.

(** The path a loader opens: the argument when it is a non-empty string,
    else the environment variable, else the default name. *)
Definition target_path (w : World) (key fallback : string) (path : option string) : string :=
  Py.or_else path (default fallback (environ w !! key)).

(** The profile stored at the path, when the file is there, can be read,
    is YAML and passes validation. *)
Definition stored_profile (w : World) (path : option string) : option UserProfile :=
  match fs w (target_path w Profile.DEFAULT_PROFILE_ENV_KEY Profile.DEFAULT_PROFILE_PATH path) with
  | Holds text =>
      match yaml_safe_load text with
      | Ok data =>
          match model_validate (if yaml_truthy data then data else yaml_empty_dict) with
          | Ok profile => Some profile
          | Raise _ => None
          end
      | Raise _ => None
      end
  | Missing | Unreadable _ => None
  end.

(** The prompt text stored at the path, when the file is there and can be
    read. *)
Definition stored_prompt (w : World) (path : option string) : option string :=
  match fs w (target_path w SystemPrompt.DEFAULT_SYSTEM_PROMPT_ENV_KEY
                SystemPrompt.DEFAULT_SYSTEM_PROMPT_PATH path) with
  | Holds text => Some text
  | Missing | Unreadable _ => None
  end.

(** The calls a loader makes to the file system: one test of existence,
    and one [open] when the path exists. *)
Definition loader_accesses (w : World) (target : string) : list fs_op :=
  FsExists target ::
  match fs w target with
  | Missing => []
  | Unreadable _ | Holds _ => [FsOpen target]
  end.

(** The local time [ask] shows: the time in the zone named by the
    profile when [ZoneInfo] knows it, else the time of the machine. *)
Definition zone_time (w : World) (user_profile : option UserProfile) : datetime :=
  match user_profile with
  | Some p =>
      match Py.or_opt (timezone p) None with
      | Some name =>
          match zone_now w name with
          | Ok d => d
          | Raise _ => local_now w
          end
      | None => local_now w
      end
  | None => local_now w
  end.

(** The four inputs of the composition, resolved before it starts: the
    profile, the local and the UTC time, and the override text. *)
Definition resolved_inputs (w : World)
    : option UserProfile * datetime * datetime * option string :=
  (stored_profile w None, zone_time w (stored_profile w None), utc_now w,
   stored_prompt w None).

(** The file of the profile is absent, cannot be read, or has an invalid
    content: a text that is not YAML, or a YAML document that pydantic
    does not accept as a profile. *)
Definition profile_file_bad (w : World) (path : option string) : Prop :=
  let target := target_path w Profile.DEFAULT_PROFILE_ENV_KEY
                  Profile.DEFAULT_PROFILE_PATH path in
  fs w target = Missing
  ∨ (∃ e, fs w target = Unreadable e)
  ∨ (∃ text, fs w target = Holds text
       ∧ ((∃ e, yaml_safe_load text = Raise e)
          ∨ (∃ data e, yaml_safe_load text = Ok data ∧ model_validate data = Raise e))).

(** The file of the profile holds a YAML document that Python takes for
    false: [null] (an empty file), [false], [0], an empty text, list or
    mapping. *)
Definition falsy_document (w : World) (path : option string) : Prop :=
  let target := target_path w Profile.DEFAULT_PROFILE_ENV_KEY
                  Profile.DEFAULT_PROFILE_PATH path in
  ∃ text data, fs w target = Holds text
               ∧ yaml_safe_load text = Ok data ∧ yaml_truthy data = false.

(** The file of the prompt is absent or cannot be read (which includes a
    content that does not decode). *)
Definition prompt_file_bad (w : World) (path : option string) : Prop :=
  let target := target_path w SystemPrompt.DEFAULT_SYSTEM_PROMPT_ENV_KEY
                  SystemPrompt.DEFAULT_SYSTEM_PROMPT_PATH path in
  fs w target = Missing ∨ (∃ e, fs w target = Unreadable e).

(** The API key is in the environment and is not empty. *)
Definition api_key_set (w : World) : Prop :=
  ∃ k, environ w !! "GOOGLE_API_KEY" = Some k ∧ k ≠ "".

End Stored.

(** A value that was given and is not empty. *)
Definition given (o : option string) : option string :=
  match o with
  | Some (String c r) => Some (String c r)
  | Some EmptyString | None => None
  end.

(** The time zone by precedence: the option of the command line, else
    the field of the profile, else the environment variable, else the
    default. *)
Definition preferred_tz (opt_timezone : option string) (pf : option UserProfile)
    (env : gmap string string) : string :=
  match given opt_timezone with
  | Some t => t
  | None =>
      match given (pf ≫= timezone) with
      | Some t => t
      | None =>
          match env !! "CLI_DEFAULT_TIMEZONE" with
          | Some v => v
          | None => "Etc/UTC"
          end
      end
  end.

(** The eight ways to write UTC in upper and lower case. *)
Definition UTC_VARIANTS : list string :=
  ["UTC"; "UTc"; "UtC"; "Utc"; "uTC"; "uTc"; "utC"; "utc"].

(** ** A small concrete world, to run the model on *)

Module Demo.

Definition istanbul : UserProfile :=
  mkUserProfile (Some "Europe/Istanbul") None None None None None None None.

Definition office : UserProfile :=
  mkUserProfile (Some "Europe/Istanbul") (Some ["mon"; "tue"])
    (Some [("mon", "09:00-18:00"); ("tue", "10:00-16:00")]) (Some "12:30-13:30")
    (Some ["Fri 14:00-16:00"]) (Some ["09:00-11:00"; "16:00-18:00"])
    (Some ["18:00-21:00"]) (Some "avoid late-night heavy tasks").

Definition blank : UserProfile :=
  mkUserProfile None None None None None None None None.

(** The documents of the toy YAML reader: [null], the empty list, the
    empty mapping, and a mapping that spells a profile. *)
Inductive document : Type :=
| YNull
| YEmptyList
| YEmptyDict
| YProfile (p : UserProfile).

(** The text occurs in the other. *)
Fixpoint occurs (needle text : string) : bool :=
  String.prefix needle text
  || match text with
     | EmptyString => false
     | String _ rest => occurs needle rest
     end.

(** The no-break space, U+00A0, as UTF-8 writes it. *)
Definition nbsp : string :=
  String (ascii_of_nat 194) (String (ascii_of_nat 160) EmptyString).

(** A toy YAML reader that knows four documents, pydantic on them (only
    a mapping is a profile), a clock that prints itself, a runtime whose
    messages are their own text, a calendar whose results are texts, and
    a rich that stumbles on one closing tag. *)
#[export] Instance ext : External := {|
  yaml_value := document;
  yaml_safe_load text :=
    if String.eqb text "timezone: Europe/Istanbul" then Ok (YProfile istanbul)
    else if String.eqb text "" then Ok YNull
    else if String.eqb text "[]" then Ok YEmptyList
    else if String.eqb text "{}" then Ok YEmptyDict
    else Raise YAMLError;
  yaml_truthy data := match data with YProfile _ => true | _ => false end;
  yaml_empty_dict := YEmptyDict;
  model_validate data :=
    match data with
    | YProfile p => Ok p
    | YEmptyDict => Ok blank
    | YNull | YEmptyList => Raise ValidationError
    end;
  datetime := string;
  strftime d fmt := d;
  strptime text fmt := if (String.length text =? 16)%nat then Some text else None;
  runtime_message := string;
  getattr_content m := m;
  str_runtime_message m := m;
  repr_tuple role content := "('" +:+ role +:+ "', '" +:+ content +:+ "')";
  tool_result := string;
  str_tool_result r := r;
  rich_error text :=
    if occurs "[/x]" text
    then Some "closing tag '[/x]' doesn't match any open tag"
    else None;
|}.

Definition system (text : string) : message := Tuple "system" text.
Definition user (text : string) : message := Tuple "user" text.
Definition reply : message := Obj "ok".

Definition other_notes : UserProfile :=
  mkUserProfile (Some "Europe/Istanbul") (Some ["mon"; "tue"])
    (Some [("mon", "09:00-18:00"); ("tue", "10:00-16:00")]) (Some "12:30-13:30")
    (Some ["Fri 14:00-16:00"]) (Some ["09:00-11:00"; "16:00-18:00"])
    (Some ["18:00-21:00"]) None.

Definition seed : list message := [system "be brief"; user "hi"].

Definition files (path : string) : file_state :=
  if String.eqb path "user_profile.yaml" then Holds "timezone: Europe/Istanbul"
  else if String.eqb path "system_prompt.md" then Holds "  Be brief.  "
  else if String.eqb path "locked.yaml" then Unreadable OSError
  else if String.eqb path "broken.yaml" then Holds "timezone: ["
  else if String.eqb path "list.yaml" then Holds "[]"
  else Missing.

(** The runtime answers every submission with one event: the submitted
    list followed by its reply. *)
Definition world : World := {|
  environ := {[ "GOOGLE_API_KEY" := "secret" ]};
  fs := files;
  zone_now name := Ok "2026-01-01 12:00:00 +03+0300";
  local_now := "2026-01-01 09:00:00 UTC+0000";
  utc_now := "2026-01-01 09:00:00 UTC+0000";
  executor_error := None;
  agent_stream history messages := Ok [messages ++ [Obj "ok"]];
  tool_error := None;
  create_event history payload := Ok "created";
  console := [];
  fs_log := [];
  submissions := [];
  tool_calls := [];
|}.

(** Another machine: other variables, another calendar, a terminal
    already written on; the same files and clocks. *)
Definition elsewhere : World := {|
  environ := {[ "GOOGLE_API_KEY" := "other"; "CLI_DEFAULT_TIMEZONE" := "utc" ]};
  fs := files;
  zone_now name := Ok "2026-01-01 12:00:00 +03+0300";
  local_now := "2026-01-01 10:00:00 CET+0100";
  utc_now := "2026-01-01 09:00:00 UTC+0000";
  executor_error := None;
  agent_stream history messages := Raise (RuntimeException "offline");
  tool_error := None;
  create_event history payload := Raise (RuntimeException "offline");
  console := [Banner];
  fs_log := [];
  submissions := [];
  tool_calls := [];
|}.

(** A machine without files. *)
Definition bare : World := {|
  environ := {[ "GOOGLE_API_KEY" := "secret"; "CLI_DEFAULT_TIMEZONE" := " utc " ]};
  fs path := Missing;
  zone_now name := Raise ZoneInfoNotFoundError;
  local_now := "2026-01-01 09:00:00 UTC+0000";
  utc_now := "2026-01-01 09:00:00 UTC+0000";
  executor_error := None;
  agent_stream history messages := Ok [messages ++ [Obj "ok"]];
  tool_error := None;
  create_event history payload := Ok "created";
  console := [];
  fs_log := [];
  submissions := [];
  tool_calls := [];
|}.


(** A machine whose only file is an empty [system_prompt.md]. *)
Definition hollow : World := {|
  environ := {[ "GOOGLE_API_KEY" := "secret" ]};
  fs path := if String.eqb path "system_prompt.md" then Holds EmptyString else Missing;
  zone_now name := Raise ZoneInfoNotFoundError;
  local_now := "2026-01-01 09:00:00 UTC+0000";
  utc_now := "2026-01-01 09:00:00 UTC+0000";
  executor_error := None;
  agent_stream history messages := Ok [messages ++ [Obj "ok"]];
  tool_error := None;
  create_event history payload := Ok "created";
  console := [];
  fs_log := [];
  submissions := [];
  tool_calls := [];
|}.

(** A machine whose profile file holds the YAML document [[]]. *)
Definition listed : World := {|
  environ := {[ "GOOGLE_API_KEY" := "secret" ]};
  fs path := if String.eqb path "user_profile.yaml" then Holds "[]" else Missing;
  zone_now name := Raise ZoneInfoNotFoundError;
  local_now := "2026-01-01 09:00:00 UTC+0000";
  utc_now := "2026-01-01 09:00:00 UTC+0000";
  executor_error := None;
  agent_stream history messages := Ok [messages ++ [Obj "ok"]];
  tool_error := None;
  create_event history payload := Ok "created";
  console := [];
  fs_log := [];
  submissions := [];
  tool_calls := [];
|}.

End Demo.

(** * The rest of the program

    The template writers of [profile.py] and [system_prompt.py], the
    model selection of [agent.py], and the commands of [cli.py] besides
    [ask] and [quick-create]. *)

(** The double quote. *)
Definition DQ : string := String (ascii_of_nat 34) EmptyString.

#[local] Set Warnings "-register-all".

(** A Python value as [json.loads] builds it or a tool returns it. The
    keys of a [PDict] are distinct, as in a [dict]. *)
Inductive pyval : Type :=
| PNone
| PBool (b : bool)
| PInt (n : Z)
| PFloat (repr : string)
| PStr (s : string)
| PList (items : list pyval)
| PDict (items : list (string * pyval)).

(** A [rich] table: title, column headers and the rows added to it. *)
Record table : Type := mkTable {
  table_title : string;
  table_columns : list string;
  table_rows : list (list string);
}.

(** What the machine and the libraries decide for the code below: which
    paths cannot be opened for writing, [json.loads], [str] of a value
    and of an exception, the calendar-list tool, the names of the tools
    of the toolkit, pyfiglet, [init_chat_model], and the exception rich
    raises on the panel of [preview_banner] for a banner and a colour
    (the colour is read as a style, and as markup in the title), if
    any. *)
Class Host : Type := {
  refused : string -> option exn;
  json_loads : string -> result pyval;
  py_str : pyval -> string;
  str_exn : exn -> string;
  panel_error : string -> string -> option exn;
  get_calendars_info : result pyval;
  toolkit_names : result (list string);
  figlet_fonts : result (list string);
  figlet_render : string -> string -> result string;
  chat_model : Type;
  init_chat_model : string -> string -> result chat_model;
}.

Section Writing.
Context `{External} `{Host}.

(** The template writers are the only code of the program that changes
    what a path holds. *)
Definition with_fs (w : World) (f : string -> file_state) : World :=
  mkWorld _ (environ w) f (zone_now w) (local_now w) (utc_now w)
    (executor_error w) (agent_stream w) (tool_error w) (create_event w) (console w) (fs_log w) (submissions w) (tool_calls w).

(** [with open(path, "w", encoding="utf-8") as f: f.write(text)]: the
    path holds the text afterwards, unless the machine refuses. *)
Definition open_write (path text : string) : M unit :=
  fun w =>
    let w' := with_fs_log w (fs_log w ++ [FsOpen path]) in
    match refused path with
    | Some e => (Raise e, w')
    | None =>
        (Ok tt, with_fs w' (fun p => if String.eqb p path then Holds text else fs w p))
    end.

(** [try: body except Exception as e: handler(e)]. *)
Definition try_except_as {A} (body : M A) (handler : exn -> M A) : M A :=
  fun w =>
    match body w with
    | (Ok a, w') => (Ok a, w')
    | (Raise e, w') => handler e w'
    end.

(** [str(e)]: a MarkupError shows its message. *)
Definition exn_text (e : exn) : string :=
  match e with
  | MarkupError message => message
  | _ => str_exn e
  end.

Fixpoint map_M {A B} (f : A -> M B) (items : list A) : M (list B) :=
  match items with
  | [] => mret []
  | x :: rest => y ← f x; ys ← map_M f rest; mret (y :: ys)
  end.

End Writing.

(** ** profile.py and system_prompt.py: the templates *)

Module Templates.
Section Templates.
Context `{External} `{Host}.

Definition PROFILE_TEMPLATE : string :=
  Py.LF +:+
  "# User profile for Calendar CLI" +:+ Py.LF +:+
  "#" +:+ Py.LF +:+
  "# Rename or relocate via CALENDAR_CLI_PROFILE env var, or pass --path argument on commands." +:+ Py.LF +:+
  "# Comments start with '#'. Keep times in 24h 'HH:MM-HH:MM' format." +:+ Py.LF +:+
  Py.LF +:+
  "timezone: Europe/Istanbul" +:+ Py.LF +:+
  "workdays: [mon, tue, wed, thu, fri]" +:+ Py.LF +:+
  "working_hours:" +:+ Py.LF +:+
  "  mon: " +:+ DQ +:+ "09:00-18:00" +:+ DQ +:+ Py.LF +:+
  "  tue: " +:+ DQ +:+ "09:00-18:00" +:+ DQ +:+ Py.LF +:+
  "  wed: " +:+ DQ +:+ "09:00-18:00" +:+ DQ +:+ Py.LF +:+
  "  thu: " +:+ DQ +:+ "09:00-18:00" +:+ DQ +:+ Py.LF +:+
  "  fri: " +:+ DQ +:+ "09:00-18:00" +:+ DQ +:+ Py.LF +:+
  "lunch: " +:+ DQ +:+ "12:30-13:30" +:+ DQ +:+ Py.LF +:+
  "no_meetings: [" +:+ DQ +:+ "Fri 14:00-16:00" +:+ DQ +:+ "]" +:+ Py.LF +:+
  "preferred_deep_work: [" +:+ DQ +:+ "09:00-11:00" +:+ DQ +:+ ", " +:+ DQ +:+ "16:00-18:00" +:+ DQ +:+ "]" +:+ Py.LF +:+
  "avoid_times: [" +:+ DQ +:+ "18:00-21:00" +:+ DQ +:+ "]" +:+ Py.LF +:+
  "notes: " +:+ DQ +:+ "Personal preferences: avoid late-night heavy tasks." +:+ DQ +:+ Py.LF.

Definition DEFAULT_SYSTEM_PROMPT_TEMPLATE : string :=
  Py.LF +:+
  "# System Prompt (You can edit freely)" +:+ Py.LF +:+
  Py.LF +:+
  "Rol: Zaman Yönetimi Danışmanı ve takvim ajanı." +:+ Py.LF +:+
  "Amaç: Kullanıcı talebini kısa ve net yanıtlamak; gerektiğinde takvimde güvenli işlemler yapmak." +:+ Py.LF +:+
  "İletişim: Gereksiz uzatma yok. Sonunda yalnızca " +:+ DQ +:+ "Öneri ve kısa bilimsel açıklama eklememi ister misiniz? (E/H)" +:+ DQ +:+ " diye sor." +:+ Py.LF +:+
  Py.LF +:+
  "İç kurallar (özet):" +:+ Py.LF +:+
  "- Biyolojik saat: 09:00–11:00 ve 16:00–18:00 zirve; ~14:00 ve geç saatlerde odak azalır." +:+ Py.LF +:+
  "- Zaman yönetimi: Planlama (önemli işler zirvede), Tutum (ertelemeden kaçın), Tuzaklar (gereksiz toplantı/sosyal medya vb.)." +:+ Py.LF +:+
  "- Mola/sağlık: 20-20-20; 60–90 dk’da 5–10 dk aktif mola; postür değişikliği/esneme." +:+ Py.LF +:+
  "- Süreç: Zaman kütüğü → önem–aciliyet → uygula → gün sonu değerlendirme." +:+ Py.LF +:+
  "- Yerleşim: Yüksek odak işler zirvede; rutin işler düşük enerji; yaratıcı işler sabah erken/akşam sakin." +:+ Py.LF +:+
  Py.LF +:+
  "Not: Bu metni değiştirebilir, kendi metodolojinizi yazabilirsiniz." +:+ Py.LF.

(** [profile.py], lines 65 to 72. *)
Definition write_default_profile_template (path : option string) : M string :=
  default_path ← Profile.get_default_profile_path;
  let target_path := Py.or_else path default_path in
  present ← os_path_exists target_path;
  if (present : bool) then mret target_path
  else
    open_write target_path (Py.strip PROFILE_TEMPLATE +:+ Py.LF);;
    mret target_path.

(** [system_prompt.py], lines 33 to 39. *)
Definition write_default_system_prompt_template (path : option string) : M string :=
  default_path ← SystemPrompt.get_default_system_prompt_path;
  let target_path := Py.or_else path default_path in
  present ← os_path_exists target_path;
  if (present : bool) then mret target_path
  else
    open_write target_path (Py.strip DEFAULT_SYSTEM_PROMPT_TEMPLATE +:+ Py.LF);;
    mret target_path.

End Templates.
End Templates.

(** ** agent.py *)

Module Agent.
Section Agent.
Context `{External} `{Host}.

(** [build_llm], lines 23 to 29. *)
Definition build_llm : M chat_model :=
  model_name ← os_getenv_default "GEMINI_MODEL" "gemini-2.5-flash";
  lift (init_chat_model model_name "google_genai").

(** [build_calendar_tools], lines 13 to 20: the tools of the toolkit,
    by name. *)
Definition build_calendar_tools : M (list string) := lift toolkit_names.

End Agent.
End Agent.

(** ** cli.py: the other commands

    A command that prints a table returns it: the value is the table
    handed to [console.print], and the model of the command ends
    there. *)

Module Commands.
Section Commands.
Context `{External} `{Host}.

Definition set_or_dash (value : option string) : string :=
  if Py.truthy_opt Py.truthy value then "SET" else "-".

(** [env_info], lines 46 to 61. *)
Definition env_info : M table :=
  google_api_key ← os_getenv "GOOGLE_API_KEY";
  gemini_model ← os_getenv_default "GEMINI_MODEL" "gemini-2.5-flash";
  tracing ← os_getenv_default "LANGSMITH_TRACING" "-";
  endpoint ← os_getenv_default "LANGSMITH_ENDPOINT" "-";
  project ← os_getenv_default "LANGSMITH_PROJECT" "-";
  langsmith_api_key ← os_getenv "LANGSMITH_API_KEY";
  banner_color ← os_getenv_default "CLI_BANNER_COLOR" "bright_blue";
  figlet_font ← os_getenv_default "CLI_FIGLET_FONT" "standard";
  default_timezone ← os_getenv_default "CLI_DEFAULT_TIMEZONE" "Etc/UTC";
  mret (mkTable "Environment" ["Key"; "Value"]
          [ ["GOOGLE_API_KEY"; set_or_dash google_api_key];
            ["GEMINI_MODEL"; gemini_model];
            ["LANGSMITH_TRACING"; tracing];
            ["LANGSMITH_ENDPOINT"; endpoint];
            ["LANGSMITH_PROJECT"; project];
            ["LANGSMITH_API_KEY"; set_or_dash langsmith_api_key];
            ["CLI_BANNER_COLOR"; banner_color];
            ["CLI_FIGLET_FONT"; figlet_font];
            ["CLI_DEFAULT_TIMEZONE"; default_timezone] ]).

(** [enumerate(items, start)] with the index already printed by [str]. *)
Fixpoint enumerate_rows (start : nat) (names : list string) : list (list string) :=
  match names with
  | [] => []
  | name :: rest => [pretty start; name] :: enumerate_rows (S start) rest
  end.

(** [tools], lines 64 to 74. *)
Definition tools : M table :=
  Cli.require_google_api_key;;
  toolkit_tools ← Agent.build_calendar_tools;
  mret (mkTable "Calendar Tools" ["#"; "Name"] (enumerate_rows 1 toolkit_tools)).

(** [cal.get(key, default)]: only a [dict] has the method. *)
Definition dict_get (cal : pyval) (key : string) (fallback : pyval) : M pyval :=
  match cal with
  | PDict items =>
      mret (match List.find (fun kv => String.eqb kv.1 key) items with
            | Some kv => kv.2
            | None => fallback
            end)
  | _ => raise (RuntimeException "AttributeError")
  end.

(** The row of one calendar, lines 236 and 237. *)
Definition calendar_row (cal : pyval) : M (list string) :=
  summary ← dict_get cal "summary" (PStr "");
  id ← dict_get cal "id" (PStr "");
  mret [py_str summary; py_str id].

(** [list_calendars], lines 217 to 240. *)
Definition list_calendars : M table :=
  Cli.require_google_api_key;;
  out ← lift get_calendars_info;
  data ← try_except
           (match out with
            | PStr text => lift (json_loads text)
            | _ => mret out
            end)
           is_Exception
           (mret out);
  rows ← match data with
         | PList cals => map_M calendar_row cals
         | _ => mret [["(unparsed)"; py_str out]]
         end;
  mret (mkTable "Calendars" ["Summary"; "ID"] rows).

(** [init_profile], lines 276 to 280. *)
Definition init_profile (path : option string) : M unit :=
  target ← Templates.write_default_profile_template path;
  let text := "Profile ready: " +:+ target in
  console_print_text text (PanelFit text "" "cyan").

(** [show_profile], lines 283 to 291. A profile object is always true. *)
Definition show_profile (path : option string) : M unit :=
  pf ← Profile.load_user_profile path;
  match pf with
  | None =>
      console_print (Line "No profile found. Run: python -m calendar_cli.cli init-profile")
  | Some pf =>
      let summary := Profile.summarize_profile_for_system pf in
      console_print_text summary (PanelFit summary "User Profile" "magenta")
  end.

(** [init_system_prompt], lines 294 to 298. *)
Definition init_system_prompt (path : option string) : M unit :=
  target ← Templates.write_default_system_prompt_template path;
  let text := "System prompt ready: " +:+ target in
  console_print_text text (PanelFit text "" "cyan").

(** The panel of line 338: the banner is a [Text], which rich does not
    read as markup; the title and the border are made from the colour. *)
Definition print_preview_panel (banner color : string) : M unit :=
  fun w =>
    match panel_error banner color with
    | Some e => (Raise e, w)
    | None =>
        (Ok tt,
         with_console w
           (console w ++ [PanelFit banner ("[bold " +:+ color +:+ "]Preview") color]))
    end.

(** [preview_banner], lines 326 to 340. The panel shows the two blocks
    of the banner, one above the other. *)
Definition preview_banner (font color : string) : M unit :=
  try_except_as
    (fonts ← lift figlet_fonts;
     if negb (bool_decide (font ∈ fonts))
     then
       let text := "[red]Unknown font:[/red] " +:+ font in
       console_print_text text (Line text)
     else
       first_block ← lift (figlet_render font "Time Management");
       second_block ← lift (figlet_render font "Agent");
       print_preview_panel (first_block +:+ Py.LF +:+ second_block) color)
    (fun e =>
       let text := "[red]Preview failed:[/red] " +:+ exn_text e in
       console_print_text text (Line text)).

End Commands.
End Commands.

(** The cell of a table in the row that starts with a key. *)
Definition table_cell (t : table) (key : string) : option string :=
  match List.find (fun row => String.eqb (default "" (head row)) key) (table_rows t) with
  | Some (_ :: value :: _) => Some value
  | _ => None
  end.

(** ** Vocabulary for the rest of the program *)

Section MoreVocabulary.
Context `{External} `{Host}.

(** The profile PyYAML and pydantic make of a text, if they accept it. *)
Definition parsed_profile (text : string) : option UserProfile :=
  match yaml_safe_load text with
  | Ok data =>
      match model_validate (if yaml_truthy data then data else yaml_empty_dict) with
      | Ok profile => Some profile
      | Raise _ => None
      end
  | Raise _ => None
  end.

(** The value the rows of [list_calendars] are made from: the text of the
    tool decoded as JSON when it decodes, else the output itself. *)
Definition loaded_data (out : pyval) : pyval :=
  match out with
  | PStr text =>
      match json_loads text with
      | Ok data => data
      | Raise _ => out
      end
  | _ => out
  end.

(** The value under a key of a dictionary, or the empty text. *)
Definition field_text (items : list (string * pyval)) (key : string) : string :=
  py_str (match List.find (fun kv => String.eqb kv.1 key) items with
          | Some kv => kv.2
          | None => PStr ""
          end).

Definition is_dict (v : pyval) : bool :=
  match v with PDict _ => true | _ => false end.

(** The two lines [require_google_api_key] prints before it exits. *)
Definition KEY_MISSING_LINES : list console_item :=
  [ Line "[bold red]GOOGLE_API_KEY not set.[/bold red]";
    Line "Set it in your environment or in a .env file." ].

(** Two worlds whose environments agree outside the two secrets, and
    agree on which of the secrets are set. *)
Definition same_public_environment (w1 w2 : World) : Prop :=
  (∀ k : string, k ≠ "GOOGLE_API_KEY" → k ≠ "LANGSMITH_API_KEY" →
     environ w1 !! k = environ w2 !! k)
  ∧ Py.truthy_opt Py.truthy (environ w1 !! "GOOGLE_API_KEY")
    = Py.truthy_opt Py.truthy (environ w2 !! "GOOGLE_API_KEY")
  ∧ Py.truthy_opt Py.truthy (environ w1 !! "LANGSMITH_API_KEY")
    = Py.truthy_opt Py.truthy (environ w2 !! "LANGSMITH_API_KEY").

End MoreVocabulary.

(** The text ends with the suffix. *)
Definition ends_with (text suffix : string) : Prop :=
  ∃ prefix : string, text = prefix +:+ suffix.

(** The keys [quick_create] may put in a payload. *)
Definition PAYLOAD_KEYS : list string :=
  ["summary"; "start_datetime"; "end_datetime"; "timezone";
   "location"; "description"; "color_id"].

(** ** More of the demo *)

Module Fixtures.

#[local] Existing Instance Demo.ext.

(** A host whose calendar tool answers [out]. Only one JSON text
    decodes: to two calendars, the second without a summary. *)
Definition host (out : result pyval) : Host := {|
  refused path := if String.eqb path "/proc/system_prompt.md" then Some OSError else None;
  json_loads text :=
    if String.eqb text "two calendars"
    then Ok (PList [ PDict [("summary", PStr "Work"); ("id", PStr "work@example.org")];
                     PDict [("id", PStr "home@example.org")] ])
    else if String.eqb text "a number" then Ok (PInt 3)
    else if String.eqb text "a broken list" then Ok (PList [PDict []; PStr "oops"])
    else Raise ValueError;
  py_str v := match v with PStr s => s | _ => "<object>" end;
  str_exn e := "error";
  panel_error banner color :=
    if String.eqb color "no such colour" then Some (RuntimeException "MissingStyle")
    else None;
  get_calendars_info := out;
  toolkit_names := Ok ["create_calendar_event"; "get_calendars_info"];
  figlet_fonts := Ok ["standard"; "slant"];
  figlet_render font text := Ok text;
  chat_model := string;
  init_chat_model name provider := Ok name;
|}.

(** The demo world without its key. *)
Definition keyless : World := {|
  environ := {[ "GEMINI_MODEL" := "gemini-pro" ]};
  fs := Demo.files;
  zone_now name := Ok "2026-01-01 12:00:00 +03+0300";
  local_now := "2026-01-01 09:00:00 UTC+0000";
  utc_now := "2026-01-01 09:00:00 UTC+0000";
  executor_error := None;
  agent_stream history messages := Ok [messages ++ [Obj "ok"]];
  tool_error := None;
  create_event history payload := Ok "created";
  console := [];
  fs_log := [];
  submissions := [];
  tool_calls := [];
|}.

(** The demo world with another key. *)
Definition rekeyed : World := {|
  environ := {[ "GOOGLE_API_KEY" := "another secret" ]};
  fs := Demo.files;
  zone_now name := Ok "2026-01-01 12:00:00 +03+0300";
  local_now := "2026-01-01 09:00:00 UTC+0000";
  utc_now := "2026-01-01 09:00:00 UTC+0000";
  executor_error := None;
  agent_stream history messages := Ok [messages ++ [Obj "ok"]];
  tool_error := None;
  create_event history payload := Ok "created";
  console := [];
  fs_log := [];
  submissions := [];
  tool_calls := [];
|}.

(** The hosts of the examples: the tool answers a text that is not JSON,
    the two calendars, and a list with a text among its entries. *)
Definition plain : Host := host (Ok (PStr "no calendars today")).
Definition two : Host := host (Ok (PStr "two calendars")).
Definition broken : Host := host (Ok (PStr "a broken list")).


End Fixtures.

(** ** Vocabulary of the properties *)

(** The status the process ends with: 0 when the command returns, the
    code of [typer.Exit], and 1 for any other exception, which nothing
    catches. *)
Definition exit_status {A} (r : result A) : Z :=
  match r with
  | Ok _ => 0%Z
  | Raise (Exit code) => code
  | Raise _ => 1%Z
  end.

(** The profile with no field set, [UserProfile()]. *)
Definition EMPTY_PROFILE : UserProfile :=
  mkUserProfile None None None None None None None None.

(** The line [quick_create] writes about a date it cannot read. *)
Definition invalid_datetime_line (dt : string) : string :=
  "[red]Invalid datetime format:[/red] " +:+ dt +:+ " (expected YYYY-MM-DD HH:MM)".

(** The first of the two dates that does not parse, when one does not. *)
Definition first_invalid `{External} (start end_ : string) : string :=
  match strptime start Cli.DATETIME_FORMAT with
  | None => start
  | Some _ => end_
  end.

(** The raw line, trimmed and in lower case, is one of the three exit
    words. *)
Definition exit_word (raw : string) : Prop :=
  let t := Py.lower (Py.strip raw) in
  t = "exit" ∨ t = "quit" ∨ t = "q".

(** The categories of the profile summary, in their fixed order. *)
Inductive category : Type :=
| CTimezone
| CWorkdays
| CWorkingHours
| CLunch
| CNoMeetings
| CDeepWork
| CAvoidTimes.

Definition CATEGORIES : list category :=
  [CTimezone; CWorkdays; CWorkingHours; CLunch; CNoMeetings; CDeepWork; CAvoidTimes].

(** A category has something to show when its field is set and not
    empty. *)
Definition nonempty (p : UserProfile) (c : category) : bool :=
  match c with
  | CTimezone => Py.truthy_opt Py.truthy (timezone p)
  | CWorkdays => Py.truthy_opt Py.truthy_list (workdays p)
  | CWorkingHours => Py.truthy_opt Py.truthy_list (working_hours p)
  | CLunch => Py.truthy_opt Py.truthy (lunch p)
  | CNoMeetings => Py.truthy_opt Py.truthy_list (no_meetings p)
  | CDeepWork => Py.truthy_opt Py.truthy_list (preferred_deep_work p)
  | CAvoidTimes => Py.truthy_opt Py.truthy_list (avoid_times p)
  end.

(** The bullet of a category: its label, then the value, lists joined by
    the separator of the category. *)
Definition bullet (p : UserProfile) (c : category) : string :=
  match c with
  | CTimezone => "- Zaman dilimi: " +:+ default "" (timezone p)
  | CWorkdays => "- Çalışma günleri: " +:+ Py.join ", " (default [] (workdays p))
  | CWorkingHours =>
      "- Çalışma saatleri: " +:+
      Py.join "; " (map (fun dw => dw.1 +:+ ": " +:+ dw.2) (default [] (working_hours p)))
  | CLunch => "- Öğle arası: " +:+ default "" (lunch p)
  | CNoMeetings => "- Toplantı kaçınma: " +:+ Py.join "; " (default [] (no_meetings p))
  | CDeepWork => "- Derin odak tercihleri: " +:+ Py.join "; " (default [] (preferred_deep_work p))
  | CAvoidTimes => "- Kaçınılacak saatler: " +:+ Py.join "; " (default [] (avoid_times p))
  end.

(** Two profiles that agree on every field but [notes]. *)
Definition same_but_notes (p q : UserProfile) : Prop :=
  timezone p = timezone q ∧ workdays p = workdays q ∧
  working_hours p = working_hours q ∧ lunch p = lunch q ∧
  no_meetings p = no_meetings q ∧ preferred_deep_work p = preferred_deep_work q ∧
  avoid_times p = avoid_times q.

(** * Properties *)

(** ** Strings *)

Section StringFacts.

Lemma lstrip_unfold (s : string) :
  Py.lstrip s = match Py.skip_space s with Some r => Py.lstrip r | None => s end.
Proof.
  destruct s as [|c r]; [reflexivity|].
  change (Py.lstrip (String c r))
    with (if Py.isspace c then Py.lstrip r
          else match r with
               | EmptyString => String c r
               | String d r1 =>
                   if Py.space2 c d then Py.lstrip r1
                   else match r1 with
                        | EmptyString => String c r
                        | String e r2 => if Py.space3 c d e then Py.lstrip r2 else String c r
                        end
               end).
  cbn [Py.skip_space]. destruct (Py.isspace c); [reflexivity|].
  destruct r as [|d r1]; [reflexivity|]. destruct (Py.space2 c d); [reflexivity|].
  destruct r1 as [|e r2]; [reflexivity|]. destruct (Py.space3 c d e); reflexivity.
Qed.

Lemma skip_space_shorter (s r : string) :
  Py.skip_space s = Some r → String.length r < String.length s.
Proof.
  destruct s as [|c [|d [|e t]]]; cbn [Py.skip_space];
    repeat match goal with |- context [if ?b then _ else _] => destruct b end;
    intros E; try discriminate E; injection E as <-; cbn [String.length]; lia.
Qed.

Lemma append_cons (c : ascii) (a b : string) :
  String c a +:+ b = String c (a +:+ b).
Proof. reflexivity. Qed.

Lemma skip_space_app (a a' b : string) :
  Py.skip_space a = Some a' → Py.skip_space (a +:+ b) = Some (a' +:+ b).
Proof.
  intros E. destruct a as [|c a1]; [discriminate E|].
  rewrite append_cons. cbn [Py.skip_space] in *.
  destruct (Py.isspace c); [injection E as <-; reflexivity|].
  destruct a1 as [|d a2]; [discriminate E|]. rewrite append_cons.
  destruct (Py.space2 c d); [injection E as <-; reflexivity|].
  destruct a2 as [|e a3]; [discriminate E|]. rewrite append_cons.
  destruct (Py.space3 c d e); [injection E as <-; reflexivity | discriminate E].
Qed.

(** Induction along the white space a text starts with. *)
Lemma lstrip_ind (P : string → Prop) :
  (∀ s, Py.skip_space s = None → P s) →
  (∀ s r, Py.skip_space s = Some r → P r → P s) →
  ∀ s, P s.
Proof.
  intros Hnone Hsome s.
  remember (String.length s) as n eqn:Hn. revert s Hn.
  induction n as [n IH] using lt_wf_ind. intros s ->.
  destruct (Py.skip_space s) as [r|] eqn:E; [|apply Hnone; exact E].
  apply (Hsome s r E). apply (IH (String.length r)); [|reflexivity].
  apply skip_space_shorter. exact E.
Qed.

Lemma lstrip_solid (s : string) : Py.skip_space (Py.lstrip s) = None.
Proof.
  induction s as [s E | s r E IH] using lstrip_ind.
  - rewrite lstrip_unfold, E. exact E.
  - rewrite lstrip_unfold, E. exact IH.
Qed.

Lemma lstrip_idem (s : string) : Py.lstrip (Py.lstrip s) = Py.lstrip s.
Proof. rewrite (lstrip_unfold (Py.lstrip s)), lstrip_solid. reflexivity. Qed.

Lemma lstrip_blank_app (a b : string) :
  Py.lstrip a = "" → Py.lstrip (a +:+ b) = Py.lstrip b.
Proof.
  induction a as [a E | a r E IH] using lstrip_ind.
  - rewrite lstrip_unfold, E. intros ->. reflexivity.
  - rewrite (lstrip_unfold a), E. intros Hb.
    rewrite (lstrip_unfold (a +:+ b)), (skip_space_app a r b E). exact (IH Hb).
Qed.

(** What [rstrip] removes is white space. *)
Lemma rstrip_split (s : string) :
  ∃ w, s = Py.rstrip s +:+ w ∧ Py.lstrip w = "".
Proof.
  induction s as [|c r (w & Hw & Hb)]; [exists ""; split; reflexivity|].
  cbn [Py.rstrip]. destruct (Py.truthy (Py.lstrip (String c r))) eqn:E.
  - exists w. split; [|exact Hb].
    change (String c r = String c (Py.rstrip r +:+ w)). f_equal. exact Hw.
  - exists (String c r). split; [reflexivity|].
    destruct (Py.lstrip (String c r)); [reflexivity | discriminate E].
Qed.

Lemma rstrip_idem (s : string) : Py.rstrip (Py.rstrip s) = Py.rstrip s.
Proof.
  induction s as [|c r IH]; [reflexivity|].
  cbn [Py.rstrip]. destruct (Py.truthy (Py.lstrip (String c r))) eqn:E; [|reflexivity].
  cbn [Py.rstrip]. rewrite IH.
  destruct (Py.truthy (Py.lstrip (String c (Py.rstrip r)))) eqn:E'; [reflexivity|].
  exfalso. destruct (rstrip_split r) as (w & Hw & Hb).
  assert (Hl : Py.lstrip (String c (Py.rstrip r)) = "").
  { destruct (Py.lstrip (String c (Py.rstrip r))); [reflexivity | discriminate E']. }
  pose proof (lstrip_blank_app (String c (Py.rstrip r)) w Hl) as Ha.
  change (String c (Py.rstrip r) +:+ w) with (String c (Py.rstrip r +:+ w)) in Ha.
  rewrite <- Hw, Hb in Ha. rewrite Ha in E. discriminate E.
Qed.

(** A text that does not start with white space keeps its start when its
    end is stripped. *)
Lemma lstrip_rstrip (t : string) :
  Py.skip_space t = None → Py.lstrip (Py.rstrip t) = Py.rstrip t.
Proof.
  intros Hs. rewrite lstrip_unfold.
  destruct (Py.skip_space (Py.rstrip t)) as [r|] eqn:E; [|reflexivity].
  exfalso. destruct (rstrip_split t) as (w & Hw & _).
  pose proof (skip_space_app _ _ w E) as Ha. rewrite <- Hw, Hs in Ha. discriminate Ha.
Qed.

Lemma strip_idem (s : string) : Py.strip (Py.strip s) = Py.strip s.
Proof.
  unfold Py.strip. rewrite (lstrip_rstrip _ (lstrip_solid s)). apply rstrip_idem.
Qed.

Ltac bools :=
  repeat match goal with
         | H : _ && _ = true |- _ => apply andb_true_iff in H; destruct H
         | H : _ || _ = true |- _ => apply orb_true_iff in H; destruct H
         | H : (_ =? _)%nat = true |- _ => apply Nat.eqb_eq in H
         | H : (_ <=? _)%nat = true |- _ => apply Nat.leb_le in H
         end.

Ltac decide_bools :=
  repeat match goal with
         | |- context [(?a <=? ?b)%nat] => destruct (Nat.leb_spec a b)
         | |- context [(?a =? ?b)%nat] => destruct (Nat.eqb_spec a b)
         end;
  cbn [andb orb]; first [reflexivity | lia].

Lemma space2_tail (c d : ascii) : Py.space2 c d = true → Py.tail_byte d = true.
Proof.
  unfold Py.space2, Py.tail_byte. cbv zeta. intros H. bools; decide_bools.
Qed.

Lemma space3_tail (c d e : ascii) :
  Py.space3 c d e = true → Py.tail_byte d = true ∧ Py.tail_byte e = true.
Proof.
  unfold Py.space3, Py.tail_byte. cbv zeta. intros H. bools; split; decide_bools.
Qed.

Lemma tail_byte_solid (d : ascii) (r : string) :
  Py.tail_byte d = true → Py.skip_space (String d r) = None.
Proof.
  unfold Py.tail_byte. cbv zeta. intros H. bools. cbn [Py.skip_space].
  assert (Hs : Py.isspace d = false) by (unfold Py.isspace; cbv zeta; decide_bools).
  rewrite Hs. destruct r as [|e r1]; [reflexivity|].
  assert (H2 : Py.space2 d e = false).
  { unfold Py.space2. cbv zeta.
    rewrite (proj2 (Nat.eqb_neq (nat_of_ascii d) 194)) by lia. reflexivity. }
  rewrite H2. destruct r1 as [|f r2]; [reflexivity|].
  assert (H3 : Py.space3 d e f = false).
  { unfold Py.space3. cbv zeta.
    rewrite (proj2 (Nat.eqb_neq (nat_of_ascii d) 225)) by lia.
    rewrite (proj2 (Nat.eqb_neq (nat_of_ascii d) 226)) by lia.
    rewrite (proj2 (Nat.eqb_neq (nat_of_ascii d) 227)) by lia.
    reflexivity. }
  rewrite H3. reflexivity.
Qed.

Lemma blank_start (w : string) :
  Py.lstrip w = "" → w = "" ∨ ∃ r, Py.skip_space w = Some r.
Proof.
  rewrite lstrip_unfold. destruct (Py.skip_space w) as [r|]; [right; eauto | left; assumption].
Qed.

(** White space at the end of a text does not make the start of a
    character of the text into white space. *)
Lemma skip_space_app_blank (a w rest : string) :
  a ≠ "" → Py.lstrip w = "" →
  Py.skip_space (a +:+ w) = Some rest →
  ∃ a', Py.skip_space a = Some a' ∧ rest = a' +:+ w.
Proof.
  intros Ha Hw E. destruct a as [|c a1]; [contradiction|].
  rewrite append_cons in E. cbn [Py.skip_space] in *.
  destruct (Py.isspace c); [injection E as <-; eauto|].
  assert (Hsolid : ∀ d r, Py.tail_byte d = true → w = String d r → False).
  { intros d r Hd ->. destruct (blank_start _ Hw) as [E0 | [r0 E0]]; [discriminate E0|].
    rewrite (tail_byte_solid d r Hd) in E0. discriminate E0. }
  destruct a1 as [|d a2].
  - exfalso. change ("" +:+ w) with w in E. destruct w as [|d w1]; [discriminate E|].
    destruct (Py.space2 c d) eqn:E2.
    + exact (Hsolid d w1 (space2_tail c d E2) eq_refl).
    + destruct w1 as [|e w2]; [discriminate E|].
      destruct (Py.space3 c d e) eqn:E3; [|discriminate E].
      exact (Hsolid d _ (proj1 (space3_tail c d e E3)) eq_refl).
  - rewrite append_cons in E. destruct (Py.space2 c d); [injection E as <-; eauto|].
    destruct a2 as [|e a3].
    + exfalso. change ("" +:+ w) with w in E. destruct w as [|e w1]; [discriminate E|].
      destruct (Py.space3 c d e) eqn:E3; [|discriminate E].
      exact (Hsolid e w1 (proj2 (space3_tail c d e E3)) eq_refl).
    + rewrite append_cons in E. destruct (Py.space3 c d e); [|discriminate E].
      injection E as <-. eauto.
Qed.

Lemma blank_app_inv (a w : string) :
  Py.lstrip w = "" → Py.lstrip (a +:+ w) = "" → Py.lstrip a = "".
Proof.
  intros Hw. remember (String.length a) as n eqn:Hn. revert a Hn.
  induction n as [n IH] using lt_wf_ind. intros a -> Hb.
  destruct a as [|c a1]; [reflexivity|].
  destruct (blank_start _ Hb) as [E | [rest E]]; [discriminate E|].
  destruct (skip_space_app_blank (String c a1) w rest) as (a' & Ea & ->);
    [discriminate | exact Hw | exact E |].
  rewrite lstrip_unfold, E in Hb. rewrite lstrip_unfold, Ea.
  apply (IH (String.length a')); [apply skip_space_shorter; exact Ea | reflexivity | exact Hb].
Qed.

Lemma rstrip_blank (w : string) : Py.lstrip w = "" → Py.rstrip w = "".
Proof. intros Hw. destruct w; [reflexivity|]. cbn [Py.rstrip]. rewrite Hw. reflexivity. Qed.

(** White space added at the end is stripped with the rest. *)
Lemma rstrip_app_blank (s w : string) :
  Py.lstrip w = "" → Py.rstrip (s +:+ w) = Py.rstrip s.
Proof.
  intros Hw. induction s as [|c r IH]; [exact (rstrip_blank w Hw)|].
  rewrite append_cons. cbn [Py.rstrip]. rewrite IH. rewrite <- append_cons.
  destruct (Py.lstrip (String c r)) as [|x t] eqn:E.
  - rewrite (lstrip_blank_app _ w E), Hw. reflexivity.
  - destruct (Py.lstrip (String c r +:+ w)) as [|y u] eqn:E'; [|reflexivity].
    rewrite (blank_app_inv _ w Hw E') in E. discriminate E.
Qed.

Lemma rstrip_solid (u : string) :
  Py.skip_space u = None → Py.skip_space (Py.rstrip u) = None.
Proof.
  intros Hs. destruct (Py.skip_space (Py.rstrip u)) as [r|] eqn:E; [|reflexivity].
  exfalso. destruct (rstrip_split u) as (w & Hw & _).
  pose proof (skip_space_app _ _ w E) as Ha. rewrite <- Hw, Hs in Ha. discriminate Ha.
Qed.

Lemma rstrip_app_lf (s : string) : Py.rstrip (s +:+ Py.LF) = Py.rstrip s.
Proof. apply rstrip_app_blank. reflexivity. Qed.

(** A text that was stripped and given a final line feed strips back to
    the stripped text. *)
Lemma strip_strip_lf (s : string) : Py.strip (Py.strip s +:+ Py.LF) = Py.strip s.
Proof.
  unfold Py.strip at 1.
  assert (Hsolid : Py.skip_space (Py.strip s) = None)
    by (apply rstrip_solid, lstrip_solid).
  destruct (Py.strip s) as [|c t] eqn:Et; [reflexivity|].
  assert (Hl : Py.lstrip (String c t +:+ Py.LF) = String c t +:+ Py.LF).
  { rewrite lstrip_unfold.
    destruct (Py.skip_space (String c t +:+ Py.LF)) as [rest|] eqn:E; [|reflexivity].
    destruct (skip_space_app_blank (String c t) Py.LF rest) as (a' & Ea & _);
      [discriminate | reflexivity | exact E |].
    rewrite Hsolid in Ea. discriminate Ea. }
  rewrite Hl, rstrip_app_lf, <- Et. unfold Py.strip. apply rstrip_idem.
Qed.

Lemma strip_prompt_response (raw : string) :
  Py.strip (Cli.prompt_response "" raw) = Py.strip raw.
Proof.
  unfold Cli.prompt_response. destruct raw as [|c r]; simpl Py.truthy; cbv iota.
  - reflexivity.
  - apply strip_idem.
Qed.

Lemma in_exit_words (t : string) :
  t ∈ Cli.EXIT_WORDS ↔ t = "exit" ∨ t = "quit" ∨ t = "q".
Proof.
  unfold Cli.EXIT_WORDS. rewrite !elem_of_union, !elem_of_singleton. tauto.
Qed.

End StringFacts.

Example strip_test : Py.strip "  Exit  " = "Exit".
Proof. vm_compute. reflexivity. Qed.

(** A no-break space before and an ideographic space after. *)
Example strip_unicode_test :
  Py.strip (String (ascii_of_nat 194) (String (ascii_of_nat 160) "exit")
            +:+ String (ascii_of_nat 227) (String (ascii_of_nat 128)
                  (String (ascii_of_nat 128) " "))) = "exit".
Proof. vm_compute. reflexivity. Qed.

Example lower_test : Py.lower "QuIt" = "quit".
Proof. reflexivity. Qed.

(** ** The conversation loop *)

Section Conversation.
Context `{External}.

Lemma on_answer_break (messages : list message) (raw : string) :
  Cli.on_answer messages (Cli.prompt_response "" raw) = Cli.Break ↔ exit_word raw.
Proof.
  unfold Cli.on_answer, exit_word. rewrite strip_prompt_response.
  rewrite <- in_exit_words.
  destruct (bool_decide_reflect (Py.lower (Py.strip raw) ∈ Cli.EXIT_WORDS)) as [Hin|Hout].
  - split; [intros _; exact Hin | reflexivity].
  - split; [|contradiction].
    destruct (negb (Py.truthy (Py.strip raw))); discriminate.
Qed.

Lemma on_answer_continue (messages : list message) (raw : string) :
  ¬ exit_word raw →
  Cli.on_answer messages (Cli.prompt_response "" raw)
  = Cli.Continue (if Py.truthy (Py.strip raw)
                  then messages ++ [Tuple "user" (Py.strip raw)]
                  else messages).
Proof.
  intros Hno. unfold Cli.on_answer. rewrite strip_prompt_response.
  destruct (bool_decide_reflect (Py.lower (Py.strip raw) ∈ Cli.EXIT_WORDS)) as [Hin|Hout].
  - apply in_exit_words in Hin. contradiction.
  - destruct (Py.truthy (Py.strip raw)); reflexivity.
Qed.

Lemma ask_loop_round (raw : string) (rest : list string) (messages ms : list message)
    (w w1 : World) :
  Cli.dispatch messages w = (Ok ms, w1) →
  Cli.ask_loop (raw :: rest) messages w
  = match Cli.on_answer ms (Cli.prompt_response "" raw) with
    | Cli.Break => (Ok tt, w1)
    | Cli.Continue ms' => Cli.ask_loop rest ms' w1
    end.
Proof.
  intros Hd. simpl. unfold mbind, M_bind. rewrite Hd.
  destruct (Cli.on_answer ms (Cli.prompt_response "" raw)); reflexivity.
Qed.

(** Showing a message writes on the terminal only, also when rich
    refuses the panel, and the bare text after it. *)
Lemma show_message_submissions (m : message) (w : World) :
  submissions (Cli.show_message m w).2 = submissions w.
Proof.
  unfold Cli.show_message, try_except, console_print_text, is_Exception.
  destruct (rich_error (Cli.message_text m)); [|reflexivity].
  destruct (rich_error (Cli.str_message m)); reflexivity.
Qed.

Lemma show_events_submissions (events : list (list message))
    (lm : option (list message)) (w : World) :
  submissions (Cli.show_events events lm w).2 = submissions w.
Proof.
  revert lm w. induction events as [|event rest IH]; intros lm w; simpl; [reflexivity|].
  destruct (last event) as [m|]; [|reflexivity].
  unfold mbind, M_bind.
  pose proof (show_message_submissions m w) as Hm.
  destruct (Cli.show_message m w) as [[[]|e] w']; cbn [snd] in Hm |- *.
  - rewrite IH. exact Hm.
  - exact Hm.
Qed.

Lemma dispatch_submissions (messages : list message) (w : World) :
  submissions (Cli.dispatch messages w).2 = submissions w ++ [messages].
Proof.
  unfold Cli.dispatch, Cli.stream, mbind, M_bind.
  destruct (agent_stream w (submissions w) messages) as [events|e]; [|reflexivity].
  pose proof (show_events_submissions events None
                (with_submissions w (submissions w ++ [messages]))) as Hs.
  destruct (Cli.show_events events None _) as [[lm|e] w'];
    simpl in Hs |- *; exact Hs.
Qed.

(** Every round opens with a submission of the list the loop holds. *)
Lemma ask_loop_submits (lines : list string) (messages : list message) (w : World) :
  ∃ later, submissions (Cli.ask_loop lines messages w).2
           = submissions w ++ messages :: later.
Proof.
  revert messages w. induction lines as [|raw rest IH]; intros messages w.
  - exists []. pose proof (dispatch_submissions messages w) as Hs.
    simpl. unfold mbind, M_bind.
    destruct (Cli.dispatch messages w) as [[ms|e] w1]; simpl in Hs |- *; exact Hs.
  - pose proof (dispatch_submissions messages w) as Hs.
    destruct (Cli.dispatch messages w) as [[ms|e] w1] eqn:Hd; simpl in Hs.
    + rewrite (ask_loop_round _ _ _ _ _ _ Hd).
      destruct (Cli.on_answer ms (Cli.prompt_response "" raw)) as [|ms'].
      * exists []. exact Hs.
      * destruct (IH ms' w1) as [later Hl]. exists (ms' :: later).
        rewrite Hl, Hs, <- app_assoc. reflexivity.
    + exists []. simpl. unfold mbind, M_bind. rewrite Hd. exact Hs.
Qed.

(** C1. A line read at the prompt of the loop ends the session exactly
    when, trimmed of the white space of Unicode and put in lower case,
    it is [exit], [quit] or [q]: the answer of the prompt then breaks
    the loop, and the command returns at once, with no further call of
    the runtime; on any other line, the empty one included, the loop
    goes on to its next round, which opens with a submission to the
    runtime. *)
Theorem ask_ends_iff_exit_word (messages : list message) (raw : string) :
  (Cli.on_answer messages (Cli.prompt_response "" raw) = Cli.Break ↔ exit_word raw)
  ∧ ¬ exit_word ""
  ∧ ∀ (rest : list string) (ms : list message) (w w1 : World),
      Cli.dispatch messages w = (Ok ms, w1) →
      (exit_word raw → Cli.ask_loop (raw :: rest) messages w = (Ok tt, w1))
      ∧ (¬ exit_word raw →
         ∃ ms', Cli.on_answer ms (Cli.prompt_response "" raw) = Cli.Continue ms'
                ∧ Cli.ask_loop (raw :: rest) messages w = Cli.ask_loop rest ms' w1
                ∧ ∃ later, submissions (Cli.ask_loop (raw :: rest) messages w).2
                           = submissions w1 ++ ms' :: later).
Proof.
  split; [apply on_answer_break|]. split.
  - unfold exit_word. simpl. intros [E | [E | E]]; discriminate E.
  - intros rest ms w w1 Hd. rewrite (ask_loop_round _ _ _ _ _ _ Hd). split.
    + intros Hx. apply (on_answer_break ms) in Hx. rewrite Hx. reflexivity.
    + intros Hno. rewrite (on_answer_continue ms raw Hno). eexists.
      split; [reflexivity|]. split; [reflexivity|]. apply ask_loop_submits.
Qed.

(** A line that is neither empty nor an exit word puts one user message
    at the end of the list, and nothing else changes in it. *)
Lemma user_line_appends_one (messages : list message) (raw : string) :
  ¬ exit_word raw → Py.strip raw ≠ "" →
  Cli.on_answer messages (Cli.prompt_response "" raw)
  = Cli.Continue (messages ++ [Tuple "user" (Py.strip raw)]).
Proof.
  intros Hno Hne. rewrite (on_answer_continue messages raw Hno).
  destruct (Py.strip raw); [contradiction | reflexivity].
Qed.

(** A line of white space only leaves the list as it is, and the loop
    goes round: the unchanged list is submitted to the runtime again. *)
Lemma blank_line_resubmits (raw : string) (rest : list string)
    (messages ms : list message) (w w1 : World) :
  Py.strip raw = "" →
  Cli.dispatch messages w = (Ok ms, w1) →
  Cli.ask_loop (raw :: rest) messages w = Cli.ask_loop rest ms w1
  ∧ ∃ later, submissions (Cli.ask_loop (raw :: rest) messages w).2
             = submissions w ++ messages :: ms :: later.
Proof.
  intros Hb Hd.
  assert (Hno : ¬ exit_word raw).
  { unfold exit_word. rewrite Hb. simpl. intros [E | [E | E]]; discriminate E. }
  assert (Hr : Cli.ask_loop (raw :: rest) messages w = Cli.ask_loop rest ms w1).
  { rewrite (ask_loop_round _ _ _ _ _ _ Hd), (on_answer_continue ms raw Hno), Hb.
    reflexivity. }
  split; [exact Hr|].
  rewrite Hr. destruct (ask_loop_submits rest ms w1) as [later Hl].
  exists later. rewrite Hl.
  pose proof (dispatch_submissions messages w) as Hs. rewrite Hd in Hs. simpl in Hs.
  rewrite Hs, <- app_assoc. reflexivity.
Qed.

End Conversation.

(** C4, on the demo world. The user starts with [hi], then enters an
    empty line, then [exit]. The list is seeded with the system and the
    user message and submitted; the empty line adds no message, yet the
    runtime is called a second time, on the list as the first call left
    it. *)
Theorem empty_line_submits_again :
  ∃ si : string,
    submissions (Cli.ask (Some "hi") [""; "exit"] Demo.world).2
    = [ [Demo.system si; Demo.user "hi"];
        [Demo.system si; Demo.user "hi"; Demo.reply] ].
Proof. eexists. vm_compute. reflexivity. Qed.

(** ** The profile summary *)

Section Summary.

Lemma append_if_app {A} (t : A → bool) (o : option A) (render : A → string)
    (d : A) (lines : list string) :
  Profile.append_if t o render lines
  = lines ++ (if Py.truthy_opt t o then [render (default d o)] else []).
Proof.
  unfold Profile.append_if. destruct o as [a|]; simpl.
  - destruct (t a); [reflexivity | symmetry; apply app_nil_r].
  - symmetry. apply app_nil_r.
Qed.

Lemma render_hours_map (items : list (string * string)) :
  Profile.render_hours items
  = "- Çalışma saatleri: " +:+ Py.join "; " (map (λ dw, dw.1 +:+ ": " +:+ dw.2) items).
Proof.
  unfold Profile.render_hours. do 2 f_equal.
  apply map_ext. intros [d w]. reflexivity.
Qed.

Lemma summary_lines_bullets (p : UserProfile) :
  Profile.summary_lines p
  = Profile.HEADER :: map (bullet p) (List.filter (nonempty p) CATEGORIES).
Proof.
  unfold Profile.summary_lines.
  rewrite (append_if_app Py.truthy (timezone p) _ "").
  rewrite (append_if_app Py.truthy_list (workdays p) _ []).
  rewrite (append_if_app Py.truthy_list (working_hours p) _ []).
  rewrite (append_if_app Py.truthy (lunch p) _ "").
  rewrite (append_if_app Py.truthy_list (no_meetings p) _ []).
  rewrite (append_if_app Py.truthy_list (preferred_deep_work p) _ []).
  rewrite (append_if_app Py.truthy_list (avoid_times p) _ []).
  rewrite render_hours_map.
  unfold CATEGORIES. cbn [List.filter nonempty].
  destruct (Py.truthy_opt Py.truthy (timezone p)),
           (Py.truthy_opt Py.truthy_list (workdays p)),
           (Py.truthy_opt Py.truthy_list (working_hours p)),
           (Py.truthy_opt Py.truthy (lunch p)),
           (Py.truthy_opt Py.truthy_list (no_meetings p)),
           (Py.truthy_opt Py.truthy_list (preferred_deep_work p)),
           (Py.truthy_opt Py.truthy_list (avoid_times p)); reflexivity.
Qed.

(** C2. The text [summarize_profile_for_system] returns is the header
    and then one bullet line for each category whose field is not empty,
    in the fixed order: time zone, work days joined by a comma, hours
    per day joined by a semicolon, lunch, windows without meetings,
    windows of deep work, windows to avoid; the lines are joined by line
    feeds. For a profile whose only non-empty field is the time zone
    the text is the header and exactly one bullet line; for a profile
    with its seven fields non-empty it is the header and the seven
    bullet lines. *)
Theorem summary_has_one_bullet_per_field (p : UserProfile) :
  Profile.summarize_profile_for_system p
  = Py.join Py.LF
      (Profile.HEADER :: map (bullet p) (List.filter (nonempty p) CATEGORIES))
  ∧ (∀ tz : string,
       timezone p = Some tz → tz ≠ "" →
       (∀ c, c ≠ CTimezone → nonempty p c = false) →
       Profile.summarize_profile_for_system p
       = Profile.HEADER +:+ Py.LF +:+ "- Zaman dilimi: " +:+ tz)
  ∧ (∀ tz wd wh lu nm dw av,
       timezone p = Some tz → workdays p = Some wd → working_hours p = Some wh →
       lunch p = Some lu → no_meetings p = Some nm →
       preferred_deep_work p = Some dw → avoid_times p = Some av →
       tz ≠ "" → wd ≠ [] → wh ≠ [] → lu ≠ "" → nm ≠ [] → dw ≠ [] → av ≠ [] →
       Profile.summarize_profile_for_system p
       = Py.join Py.LF
           [ Profile.HEADER;
             "- Zaman dilimi: " +:+ tz;
             "- Çalışma günleri: " +:+ Py.join ", " wd;
             "- Çalışma saatleri: " +:+
               Py.join "; " (map (λ dw, dw.1 +:+ ": " +:+ dw.2) wh);
             "- Öğle arası: " +:+ lu;
             "- Toplantı kaçınma: " +:+ Py.join "; " nm;
             "- Derin odak tercihleri: " +:+ Py.join "; " dw;
             "- Kaçınılacak saatler: " +:+ Py.join "; " av ]).
Proof.
  unfold Profile.summarize_profile_for_system.
  split; [rewrite summary_lines_bullets; reflexivity|]. split.
  - intros tz Htz Hne Hrest.
    assert (Hl : Profile.summary_lines p = [Profile.HEADER; "- Zaman dilimi: " +:+ tz]).
    { rewrite summary_lines_bullets. unfold CATEGORIES. cbn [List.filter].
      rewrite (Hrest CWorkdays), (Hrest CWorkingHours), (Hrest CLunch),
        (Hrest CNoMeetings), (Hrest CDeepWork), (Hrest CAvoidTimes) by discriminate.
      unfold nonempty, bullet. rewrite Htz. destruct tz; [contradiction|]. reflexivity. }
    rewrite Hl. reflexivity.
  - intros tz wd wh lu nm dw av Htz Hwd Hwh Hlu Hnm Hdw Hav ? ? ? ? ? ? ?.
    f_equal.
    rewrite summary_lines_bullets. unfold CATEGORIES, nonempty, bullet. simpl.
    rewrite Htz, Hwd, Hwh, Hlu, Hnm, Hdw, Hav.
    destruct tz, wd, wh, lu, nm, dw, av; try contradiction. reflexivity.
Qed.

(** C7. Two profiles that differ in their notes only have the same
    summary. *)
Theorem notes_never_reach_summary (p q : UserProfile) :
  same_but_notes p q →
  Profile.summarize_profile_for_system p = Profile.summarize_profile_for_system q.
Proof.
  intros (Htz & Hwd & Hwh & Hlu & Hnm & Hdw & Hav).
  unfold Profile.summarize_profile_for_system, Profile.summary_lines.
  rewrite Htz, Hwd, Hwh, Hlu, Hnm, Hdw, Hav. reflexivity.
Qed.

End Summary.

(** ** The loaders *)

Section Loaders.
Context `{External}.

Lemma load_user_profile_run (path : option string) (w : World) :
  Profile.load_user_profile path w
  = (Ok (stored_profile w path),
     with_fs_log w
       (fs_log w ++ loader_accesses w
          (target_path w Profile.DEFAULT_PROFILE_ENV_KEY Profile.DEFAULT_PROFILE_PATH path))).
Proof.
  unfold Profile.load_user_profile, Profile.get_default_profile_path, stored_profile,
    loader_accesses, target_path, os_getenv_default, os_path_exists, mbind, M_bind.
  cbn [fst snd].
  set (target := Py.or_else path _).
  destruct (fs w target) as [|e|text] eqn:Hfs; cbn [negb].
  - reflexivity.
  - unfold try_except, open_read, mbind, M_bind, mret, M_ret, is_Exception. cbn.
    rewrite Hfs. cbn. rewrite <- app_assoc. reflexivity.
  - unfold try_except, open_read, Profile.parse_profile, lift, mbind, M_bind, mret,
      M_ret, is_Exception. cbn. rewrite Hfs. cbn.
    destruct (yaml_safe_load text) as [data|e]; cbn.
    + destruct (model_validate _) as [profile|e]; cbn; rewrite <- app_assoc; reflexivity.
    + rewrite <- app_assoc. reflexivity.
Qed.

Lemma load_system_prompt_run (path : option string) (w : World) :
  SystemPrompt.load_system_prompt path w
  = (Ok (stored_prompt w path),
     with_fs_log w
       (fs_log w ++ loader_accesses w
          (target_path w SystemPrompt.DEFAULT_SYSTEM_PROMPT_ENV_KEY
             SystemPrompt.DEFAULT_SYSTEM_PROMPT_PATH path))).
Proof.
  unfold SystemPrompt.load_system_prompt, SystemPrompt.get_default_system_prompt_path,
    stored_prompt, loader_accesses, target_path, os_getenv_default, os_path_exists,
    mbind, M_bind.
  cbn [fst snd].
  set (target := Py.or_else path _).
  destruct (fs w target) as [|e|text] eqn:Hfs; cbn [negb].
  - reflexivity.
  - unfold try_except, open_read, mbind, M_bind, mret, M_ret, is_Exception. cbn.
    rewrite Hfs. cbn. rewrite <- app_assoc. reflexivity.
  - unfold try_except, open_read, mbind, M_bind, mret, M_ret, is_Exception. cbn.
    rewrite Hfs. cbn. rewrite <- app_assoc. reflexivity.
Qed.

Lemma stored_profile_bad (path : option string) (w : World) :
  profile_file_bad w path → ¬ falsy_document w path → stored_profile w path = None.
Proof.
  unfold profile_file_bad, falsy_document, stored_profile.
  intros [E | [[e E] | (text & E & [[e Hy] | (data & e & Hy & Hv)])]] Hfalsy; rewrite E;
    try reflexivity; rewrite Hy; [reflexivity|].
  destruct (yaml_truthy data) eqn:Ht; [rewrite Hv; reflexivity|].
  exfalso. apply Hfalsy. exists text, data. repeat split; assumption.
Qed.

Lemma stored_prompt_bad (path : option string) (w : World) :
  prompt_file_bad w path → stored_prompt w path = None.
Proof.
  unfold prompt_file_bad, stored_prompt. intros [E | [e E]]; rewrite E; reflexivity.
Qed.

Lemma resolve_now_local_run (user_profile : option UserProfile) (w : World) :
  Cli.resolve_now_local user_profile w = (Ok (zone_time w user_profile), w).
Proof.
  unfold Cli.resolve_now_local, zone_time, try_except, Cli.datetime_now_zone,
    Cli.datetime_now_local, is_Exception.
  destruct user_profile as [p|]; [|reflexivity].
  destruct (Py.or_opt (timezone p) None) as [name|]; [|reflexivity].
  destruct (zone_now w name); reflexivity.
Qed.

Lemma ask_system_instructions_run (w : World) :
  Cli.ask_system_instructions w
  = (Ok (Cli.prepend_external (stored_prompt w None)
           (Cli.generated_instructions (zone_time w (stored_profile w None)) (utc_now w)
              (Cli.profile_note (stored_profile w None)))),
     (SystemPrompt.load_system_prompt None (Profile.load_user_profile None w).2).2).
Proof.
  unfold Cli.ask_system_instructions, mbind, M_bind.
  rewrite load_user_profile_run. cbn [fst snd].
  rewrite resolve_now_local_run. unfold Cli.datetime_now_utc.
  rewrite load_system_prompt_run. reflexivity.
Qed.

(** What holds of the loaders. Neither raises: each returns a value in
    every state of its path. The prompt loader returns [None] when the
    file is absent or cannot be read; the profile loader returns [None]
    when the file is absent, cannot be read or has an invalid content,
    unless the document is one Python takes for false. With [None] from
    both, the system message of [ask] is the generated text alone. *)
Lemma loaders_return (path : option string) (w : World) :
  (∃ r, (Profile.load_user_profile path w).1 = Ok r
        ∧ (profile_file_bad w path → ¬ falsy_document w path → r = None))
  ∧ (∃ r, (SystemPrompt.load_system_prompt path w).1 = Ok r
          ∧ (prompt_file_bad w path → r = None))
  ∧ ((Profile.load_user_profile None w).1 = Ok None →
     (SystemPrompt.load_system_prompt None w).1 = Ok None →
     (Cli.ask_system_instructions w).1
     = Ok (Cli.generated_instructions (local_now w) (utc_now w) "")).
Proof.
  split; [|split].
  - exists (stored_profile w path). rewrite load_user_profile_run.
    split; [reflexivity | apply stored_profile_bad].
  - exists (stored_prompt w path). rewrite load_system_prompt_run.
    split; [reflexivity | apply stored_prompt_bad].
  - rewrite load_user_profile_run, load_system_prompt_run, ask_system_instructions_run.
    cbn [fst]. intros Hp Hs. injection Hp as Hp. injection Hs as Hs.
    rewrite Hp, Hs. reflexivity.
Qed.

(** C6, where the code departs from it. A profile file whose content is
    invalid (pydantic rejects the document) is not always answered by
    [None]: when the document is one Python takes for false, such as the
    empty list, [yaml.safe_load(f) or {}] replaces it by the empty
    mapping, and the loader returns the profile with no field set. The
    system message of [ask] then has a profile section, made of the
    header alone. *)
Theorem invalid_profile_loads_as_empty (path : option string) (text : string)
    (data : yaml_value) (e : exn) (w : World) :
  fs w (target_path w Profile.DEFAULT_PROFILE_ENV_KEY Profile.DEFAULT_PROFILE_PATH path)
  = Holds text →
  yaml_safe_load text = Ok data →
  model_validate data = Raise e →
  yaml_truthy data = false →
  model_validate yaml_empty_dict = Ok EMPTY_PROFILE →
  profile_file_bad w path
  ∧ (Profile.load_user_profile path w).1 = Ok (Some EMPTY_PROFILE)
  ∧ (path = None →
     (Cli.ask_system_instructions w).1
     = Ok (Cli.prepend_external (stored_prompt w None)
             (Cli.generated_instructions (local_now w) (utc_now w)
                (Py.LF +:+ Py.LF +:+ Profile.HEADER)))).
Proof.
  intros Hfs Hy Hv Ht Hempty.
  assert (Hs : stored_profile w path = Some EMPTY_PROFILE).
  { unfold stored_profile. rewrite Hfs, Hy, Ht, Hempty. reflexivity. }
  split; [|split].
  - right. right. exists text. split; [exact Hfs|]. right. exists data, e. split; assumption.
  - rewrite load_user_profile_run. cbn [fst]. rewrite Hs. reflexivity.
  - intros ->. rewrite ask_system_instructions_run. cbn [fst]. rewrite Hs. reflexivity.
Qed.

(** C5, amended. When [load_system_prompt] hands over a text that is not
    empty, the system message of [ask] is that text stripped of the
    white space around it, an empty line, and then the generated
    instructions; these are built from the two times and the profile
    only. They are the whole message when there is no override, and
    also when the override is there but holds no text. *)
Theorem external_prompt_goes_first (w : World) :
  let generated :=
    Cli.generated_instructions (zone_time w (stored_profile w None)) (utc_now w)
      (Cli.profile_note (stored_profile w None)) in
  (∀ override : string,
     (SystemPrompt.load_system_prompt None w).1 = Ok (Some override) →
     override ≠ "" →
     (Cli.ask_system_instructions w).1
     = Ok (Py.strip override +:+ Py.LF +:+ Py.LF +:+ generated))
  ∧ ((SystemPrompt.load_system_prompt None w).1 = Ok None →
     (Cli.ask_system_instructions w).1 = Ok generated)
  ∧ ((SystemPrompt.load_system_prompt None w).1 = Ok (Some "") →
     (Cli.ask_system_instructions w).1 = Ok generated).
Proof.
  intros generated. rewrite load_system_prompt_run, ask_system_instructions_run.
  cbn [fst]. split; [|split].
  - intros override Hs Hne. injection Hs as Hs. rewrite Hs.
    destruct override; [contradiction | reflexivity].
  - intros Hs. injection Hs as Hs. rewrite Hs. reflexivity.
  - intros Hs. injection Hs as Hs. rewrite Hs. reflexivity.
Qed.

(** The inputs read off the world are the ones the code resolves. *)
Lemma resolved_inputs_sound (w : World) :
  (Profile.load_user_profile None w).1 = Ok (resolved_inputs w).1.1.1
  ∧ (Cli.resolve_now_local (stored_profile w None) (Profile.load_user_profile None w).2).1
    = Ok (resolved_inputs w).1.1.2
  ∧ (Cli.datetime_now_utc w).1 = Ok (resolved_inputs w).1.2
  ∧ (SystemPrompt.load_system_prompt None (Profile.load_user_profile None w).2).1
    = Ok (resolved_inputs w).2.
Proof.
  rewrite resolve_now_local_run, load_system_prompt_run, load_user_profile_run.
  repeat split.
Qed.

(** C8. The system message is a function of the four resolved inputs:
    two worlds that agree on them give the same text, whatever else
    differs. Building it touches nothing: the world [ask] is left in is
    the one the two loaders leave, so the runtime and the calendar are
    not called and no file is opened beyond the two loads. *)
Theorem system_instructions_deterministic (w1 w2 : World) :
  (resolved_inputs w1 = resolved_inputs w2 →
   (Cli.ask_system_instructions w1).1 = (Cli.ask_system_instructions w2).1)
  ∧ (Cli.ask_system_instructions w1).2
    = (SystemPrompt.load_system_prompt None (Profile.load_user_profile None w1).2).2
  ∧ submissions (Cli.ask_system_instructions w1).2 = submissions w1
  ∧ tool_calls (Cli.ask_system_instructions w1).2 = tool_calls w1.
Proof.
  rewrite !ask_system_instructions_run. cbn [fst snd].
  split; [|split; [reflexivity|]].
  - unfold resolved_inputs. intros Heq. injection Heq as Hp Hl Hu Hs.
    rewrite Hl, Hp, Hu, Hs. reflexivity.
  - rewrite load_user_profile_run, load_system_prompt_run. split; reflexivity.
Qed.

End Loaders.

(** ** The quick-create command *)

Section UtcVariants.

Lemma upper_char_U (c : ascii) :
  Py.upper_char c = "U"%char ↔ c = "U"%char ∨ c = "u"%char.
Proof.
  destruct c as [[] [] [] [] [] [] [] []]; vm_compute;
    (split; [intros E; first [discriminate E | (left; reflexivity) | (right; reflexivity)]
            | intros [E | E]; first [discriminate E | reflexivity]]).
Qed.

Lemma upper_char_T (c : ascii) :
  Py.upper_char c = "T"%char ↔ c = "T"%char ∨ c = "t"%char.
Proof.
  destruct c as [[] [] [] [] [] [] [] []]; vm_compute;
    (split; [intros E; first [discriminate E | (left; reflexivity) | (right; reflexivity)]
            | intros [E | E]; first [discriminate E | reflexivity]]).
Qed.

Lemma upper_char_C (c : ascii) :
  Py.upper_char c = "C"%char ↔ c = "C"%char ∨ c = "c"%char.
Proof.
  destruct c as [[] [] [] [] [] [] [] []]; vm_compute;
    (split; [intros E; first [discriminate E | (left; reflexivity) | (right; reflexivity)]
            | intros [E | E]; first [discriminate E | reflexivity]]).
Qed.

(** The test of the code, [tz.upper() == "UTC"], holds exactly for the
    eight case variants. *)
Lemma upper_is_UTC (t : string) : Py.upper t = "UTC" ↔ In t UTC_VARIANTS.
Proof.
  split.
  - destruct t as [|a [|b [|c [|d r]]]]; simpl; try discriminate.
    intros E. injection E as Ha Hb Hc.
    apply upper_char_U in Ha. apply upper_char_T in Hb. apply upper_char_C in Hc.
    destruct Ha as [-> | ->], Hb as [-> | ->], Hc as [-> | ->]; tauto.
  - unfold UTC_VARIANTS. simpl.
    intros [<- | [<- | [<- | [<- | [<- | [<- | [<- | [<- | []]]]]]]]]; reflexivity.
Qed.

Lemma normalize_tz_spec (chosen : string) :
  (In (Py.strip chosen) UTC_VARIANTS → Cli.normalize_tz chosen = "Etc/UTC")
  ∧ (¬ In (Py.strip chosen) UTC_VARIANTS → Cli.normalize_tz chosen = Py.strip chosen).
Proof.
  unfold Cli.normalize_tz. rewrite <- upper_is_UTC.
  destruct (String.eqb_spec (Py.upper (Py.strip chosen)) "UTC") as [E | E].
  - split; [reflexivity | contradiction].
  - split; [contradiction | reflexivity].
Qed.

Lemma chosen_tz_preferred (opt_timezone : option string) (pf : option UserProfile)
    (env : gmap string string) :
  Cli.chosen_tz opt_timezone pf (default "Etc/UTC" (env !! "CLI_DEFAULT_TIMEZONE"))
  = preferred_tz opt_timezone pf env.
Proof.
  unfold Cli.chosen_tz, preferred_tz, Py.or_else, Py.or_opt.
  destruct opt_timezone as [[|c r]|]; simpl; try reflexivity;
    destruct pf as [p|]; simpl; try reflexivity;
    destruct (timezone p) as [[|c' r']|]; simpl; try reflexivity;
    destruct (env !! "CLI_DEFAULT_TIMEZONE"); reflexivity.
Qed.

Lemma build_payload_timezone (summary start end_ tz : string)
    (location description color_id : option string) :
  Cli.build_payload summary start end_ tz location description color_id !! "timezone"
  = Some tz.
Proof.
  unfold Cli.build_payload, Cli.set_if.
  destruct location as [[|? ?]|], description as [[|? ?]|], color_id as [[|? ?]|];
    simpl; repeat (rewrite lookup_insert_ne by discriminate);
    apply lookup_insert_eq.
Qed.

End UtcVariants.

Section QuickCreate.
Context `{External}.

Lemma require_key_ok (w : World) :
  api_key_set w → Cli.require_google_api_key w = (Ok tt, w).
Proof.
  intros (k & Hk & Hne). unfold Cli.require_google_api_key, os_getenv, mbind, M_bind.
  rewrite Hk. destruct k; [contradiction | reflexivity].
Qed.

Lemma require_key_exit (w : World) :
  ¬ api_key_set w →
  ∃ out, Cli.require_google_api_key w = (Raise (Exit 1), with_console w (console w ++ out)).
Proof.
  intros Hno. unfold Cli.require_google_api_key, os_getenv, mbind, M_bind.
  destruct (environ w !! "GOOGLE_API_KEY") as [[|c r]|] eqn:Hk; cbn.
  - eexists. rewrite <- app_assoc. reflexivity.
  - exfalso. apply Hno. exists (String c r). split; [exact Hk | discriminate].
  - eexists. rewrite <- app_assoc. reflexivity.
Qed.

Lemma api_key_set_dec (w : World) : api_key_set w ∨ ¬ api_key_set w.
Proof.
  unfold api_key_set.
  destruct (environ w !! "GOOGLE_API_KEY") as [[|c r]|].
  - right. intros (k & Hk & Hne). injection Hk as <-. contradiction.
  - left. exists (String c r). split; [reflexivity | discriminate].
  - right. intros (k & Hk & _). discriminate Hk.
Qed.

Lemma validate_datetime_ok (dt : string) (d : datetime) (w : World) :
  strptime dt Cli.DATETIME_FORMAT = Some d → Cli.validate_datetime dt w = (Ok tt, w).
Proof.
  intros Hp. unfold Cli.validate_datetime, try_except. rewrite Hp. reflexivity.
Qed.

Lemma validate_datetime_bad (dt : string) (w : World) :
  strptime dt Cli.DATETIME_FORMAT = None →
  Cli.validate_datetime dt w
  = match rich_error (invalid_datetime_line dt) with
    | None =>
        (Raise (Exit 1), with_console w (console w ++ [Line (invalid_datetime_line dt)]))
    | Some message => (Raise (MarkupError message), w)
    end.
Proof.
  intros Hp. unfold Cli.validate_datetime, try_except, console_print_text, mbind, M_bind.
  rewrite Hp. cbn [raise is_ValueError]. fold (invalid_datetime_line dt).
  destruct (rich_error (invalid_datetime_line dt)); reflexivity.
Qed.

(** With the key set and both dates accepted, the command loads the
    profile, builds the tool, calls it once, and hands what the tool
    returned to rich. *)
Lemma quick_create_run (summary start end_ : string)
    (opt_timezone location description color_id : option string)
    (d1 d2 : datetime) (w : World) :
  api_key_set w →
  strptime start Cli.DATETIME_FORMAT = Some d1 →
  strptime end_ Cli.DATETIME_FORMAT = Some d2 →
  let payload :=
    Cli.build_payload summary start end_
      (Cli.normalize_tz (preferred_tz opt_timezone (stored_profile w None) (environ w)))
      location description color_id in
  let w0 := (Profile.load_user_profile None w).2 in
  let w1 := with_tool_calls w0 (tool_calls w ++ [payload]) in
  Cli.quick_create summary start end_ opt_timezone location description color_id w
  = match tool_error w with
    | Some e => (Raise e, w0)
    | None =>
        match create_event w (tool_calls w) payload with
        | Ok r =>
            match rich_error (str_tool_result r) with
            | None =>
                (Ok tt,
                 with_console w1
                   (console w ++ [PanelFit (str_tool_result r) "Create Event" "green"]))
            | Some message => (Raise (MarkupError message), w1)
            end
        | Raise e => (Raise e, w1)
        end
    end.
Proof.
  intros Hk H1 H2 payload w0 w1. unfold Cli.quick_create, mbind, M_bind.
  rewrite (require_key_ok w Hk). cbn [Cli.for_each]. unfold mbind, M_bind.
  rewrite (validate_datetime_ok start d1 w H1), (validate_datetime_ok end_ d2 w H2).
  cbn [mret M_ret]. unfold mret, M_ret.
  subst w1 w0. rewrite load_user_profile_run. cbn [fst snd].
  unfold os_getenv_default, Cli.CalendarCreateEvent, Cli.tool_invoke, console_print_text.
  cbn [environ with_fs_log tool_calls create_event tool_error].
  rewrite chosen_tz_preferred. fold payload.
  destruct (tool_error w); [reflexivity|].
  cbn [fst snd create_event tool_calls with_fs_log].
  destruct (create_event w (tool_calls w) payload) as [r|e]; [|reflexivity].
  cbn [fst snd]. destruct (rich_error (str_tool_result r)); reflexivity.
Qed.


Lemma quick_create_bad_datetime_run (summary start end_ : string)
    (opt_timezone location description color_id : option string) (w : World) :
  api_key_set w →
  strptime start Cli.DATETIME_FORMAT = None ∨ strptime end_ Cli.DATETIME_FORMAT = None →
  let line := invalid_datetime_line (first_invalid start end_) in
  Cli.quick_create summary start end_ opt_timezone location description color_id w
  = match rich_error line with
    | None => (Raise (Exit 1), with_console w (console w ++ [Line line]))
    | Some message => (Raise (MarkupError message), w)
    end.
Proof.
  intros Hk Hbad line. subst line. unfold Cli.quick_create, first_invalid, mbind, M_bind.
  rewrite (require_key_ok w Hk). cbn [Cli.for_each]. unfold mbind, M_bind.
  destruct (strptime start Cli.DATETIME_FORMAT) as [d1|] eqn:H1.
  - rewrite (validate_datetime_ok start d1 w H1).
    destruct Hbad as [Hbad | Hbad]; [discriminate Hbad|].
    rewrite (validate_datetime_bad end_ w Hbad).
    destruct (rich_error (invalid_datetime_line end_)); reflexivity.
  - rewrite (validate_datetime_bad start w H1).
    destruct (rich_error (invalid_datetime_line start)); reflexivity.
Qed.

(** C9. When the start or the end does not parse, the command ends with
    exit status 1; the tool was not built or called, no file was
    touched (the profile is loaded only after the dates are accepted)
    and the runtime was not called. With the key set, the command hands
    rich the message about the first date that fails: when rich accepts
    it, the message is shown and the command raises [Exit 1]; when the
    date holds markup that rich rejects, the MarkupError ends the
    command, with the same status. Without the key the command has
    raised [Exit 1] before it looks at the dates. *)
Theorem quick_create_rejects_bad_datetime (summary start end_ : string)
    (opt_timezone location description color_id : option string) (w : World) :
  strptime start Cli.DATETIME_FORMAT = None ∨ strptime end_ Cli.DATETIME_FORMAT = None →
  let run :=
    Cli.quick_create summary start end_ opt_timezone location description color_id w in
  let line := invalid_datetime_line (first_invalid start end_) in
  exit_status run.1 = 1%Z
  ∧ tool_calls run.2 = tool_calls w
  ∧ fs_log run.2 = fs_log w
  ∧ submissions run.2 = submissions w
  ∧ (api_key_set w → rich_error line = None →
     run.1 = Raise (Exit 1) ∧ console run.2 = console w ++ [Line line])
  ∧ (api_key_set w → ∀ message, rich_error line = Some message →
     run.1 = Raise (MarkupError message) ∧ console run.2 = console w)
  ∧ (¬ api_key_set w → run.1 = Raise (Exit 1)).
Proof.
  intros Hbad run line. subst run line.
  destruct (api_key_set_dec w) as [Hk | Hk].
  - rewrite (quick_create_bad_datetime_run summary start end_ opt_timezone location
               description color_id w Hk Hbad).
    destruct (rich_error (invalid_datetime_line (first_invalid start end_))) as [m|].
    + do 4 (split; [reflexivity|]).
      split; [intros _ E; discriminate E|]. split; [|intros Hno; contradiction].
      intros _ message E. injection E as <-. split; reflexivity.
    + do 4 (split; [reflexivity|]).
      split; [intros _ _; split; reflexivity|].
      split; [intros _ message E; discriminate E | intros Hno; contradiction].
  - unfold Cli.quick_create, mbind, M_bind.
    destruct (require_key_exit w Hk) as [out Hout]. rewrite Hout.
    do 4 (split; [reflexivity|]).
    split; [intros Hyes; contradiction|]. split; [intros Hyes; contradiction|].
    intros _. reflexivity.
Qed.

(** C10. The time zone of the payload is found by precedence: the
    option of the command line, else the time zone of the loaded
    profile, else the variable CLI_DEFAULT_TIMEZONE, else Etc/UTC (an
    empty option or field counts as not given). It is stripped of the
    white space around it, and any of the eight spellings of UTC then
    becomes Etc/UTC. That payload is what the tool, once built, is
    called with. *)
Theorem quick_create_timezone (summary start end_ : string)
    (opt_timezone location description color_id : option string)
    (d1 d2 : datetime) (pf : option UserProfile) (w : World) :
  api_key_set w →
  strptime start Cli.DATETIME_FORMAT = Some d1 →
  strptime end_ Cli.DATETIME_FORMAT = Some d2 →
  (Profile.load_user_profile None w).1 = Ok pf →
  tool_error w = None →
  let run :=
    Cli.quick_create summary start end_ opt_timezone location description color_id w in
  let tz := Py.strip (preferred_tz opt_timezone pf (environ w)) in
  ∃ payload : gmap string string,
    tool_calls run.2 = tool_calls w ++ [payload]
    ∧ (In tz UTC_VARIANTS → payload !! "timezone" = Some "Etc/UTC")
    ∧ (¬ In tz UTC_VARIANTS → payload !! "timezone" = Some tz).
Proof.
  intros Hk H1 H2 Hpf Htool run tz. subst run tz.
  rewrite load_user_profile_run in Hpf. cbn [fst] in Hpf. injection Hpf as <-.
  rewrite (quick_create_run _ _ _ _ _ _ _ d1 d2 w Hk H1 H2), Htool.
  eexists. split; [|split].
  - destruct (create_event w (tool_calls w) _) as [r|e]; [|reflexivity].
    destruct (rich_error (str_tool_result r)); reflexivity.
  - intros Hin. rewrite build_payload_timezone.
    f_equal. apply normalize_tz_spec. exact Hin.
  - intros Hout. rewrite build_payload_timezone.
    f_equal. apply normalize_tz_spec. exact Hout.
Qed.

End QuickCreate.

(** ** The first submission of [ask] *)

Section Seed.
Context `{External}.

(** With the key set, the agent built and a first message given, the
    first list the runtime receives is the system message followed by
    that message. *)
Lemma ask_seeds_two_messages (prompt : string) (lines : list string) (w : World) :
  api_key_set w → executor_error w = None → prompt ≠ "" →
  ∃ (si : string) (later : list (list message)),
    (Cli.ask_system_instructions w).1 = Ok si
    ∧ submissions (Cli.ask (Some prompt) lines w).2
      = submissions w ++ [Tuple "system" si; Tuple "user" prompt] :: later.
Proof.
  intros Hk Hx Hne. unfold Cli.ask, mbind, M_bind.
  rewrite (require_key_ok w Hk). unfold console_print at 1.
  unfold Cli.build_agent_executor. cbn [executor_error with_console]. rewrite Hx.
  destruct prompt as [|c r]; [contradiction|]. cbn [Py.truthy mret M_ret].
  rewrite !ask_system_instructions_run. cbn [fst snd].
  unfold console_print.
  match goal with
  | |- context [Cli.ask_loop lines ?ms ?w0] =>
      destruct (ask_loop_submits lines ms w0) as [later Hl]
  end.
  eexists _, later. split; [reflexivity|].
  rewrite Hl. rewrite load_system_prompt_run, load_user_profile_run. reflexivity.
Qed.

End Seed.

(** * Properties of the rest of the program *)

(** ** The template files *)

Section TemplateFacts.
Context `{External} `{Host}.

Lemma append_assoc (a b c : string) : (a +:+ b) +:+ c = a +:+ (b +:+ c).
Proof.
  induction a as [|x a IH]; [reflexivity|].
  change (String x ((a +:+ b) +:+ c) = String x (a +:+ (b +:+ c))).
  f_equal. exact IH.
Qed.

Lemma write_default_profile_template_run (path : option string) (w : World) :
  let target := target_path w Profile.DEFAULT_PROFILE_ENV_KEY
                  Profile.DEFAULT_PROFILE_PATH path in
  let text := Py.strip Templates.PROFILE_TEMPLATE +:+ Py.LF in
  Templates.write_default_profile_template path w
  = match fs w target with
    | Missing =>
        let w1 := with_fs_log w (fs_log w ++ [FsExists target; FsOpen target]) in
        match refused target with
        | Some e => (Raise e, w1)
        | None =>
            (Ok target,
             with_fs w1 (fun p => if String.eqb p target then Holds text else fs w p))
        end
    | Unreadable _ | Holds _ =>
        (Ok target, with_fs_log w (fs_log w ++ [FsExists target]))
    end.
Proof.
  intros target text.
  unfold Templates.write_default_profile_template, Profile.get_default_profile_path,
    os_getenv_default, os_path_exists, open_write, mbind, M_bind, mret, M_ret.
  cbn [fst snd]. fold (target_path w Profile.DEFAULT_PROFILE_ENV_KEY
                         Profile.DEFAULT_PROFILE_PATH path). fold target. fold text.
  destruct (fs w target) eqn:Hfs; try reflexivity.
  cbn. destruct (refused target); cbn; rewrite <- app_assoc; reflexivity.
Qed.

Lemma write_default_system_prompt_template_run (path : option string) (w : World) :
  let target := target_path w SystemPrompt.DEFAULT_SYSTEM_PROMPT_ENV_KEY
                  SystemPrompt.DEFAULT_SYSTEM_PROMPT_PATH path in
  let text := Py.strip Templates.DEFAULT_SYSTEM_PROMPT_TEMPLATE +:+ Py.LF in
  Templates.write_default_system_prompt_template path w
  = match fs w target with
    | Missing =>
        let w1 := with_fs_log w (fs_log w ++ [FsExists target; FsOpen target]) in
        match refused target with
        | Some e => (Raise e, w1)
        | None =>
            (Ok target,
             with_fs w1 (fun p => if String.eqb p target then Holds text else fs w p))
        end
    | Unreadable _ | Holds _ =>
        (Ok target, with_fs_log w (fs_log w ++ [FsExists target]))
    end.
Proof.
  intros target text.
  unfold Templates.write_default_system_prompt_template,
    SystemPrompt.get_default_system_prompt_path,
    os_getenv_default, os_path_exists, open_write, mbind, M_bind, mret, M_ret.
  cbn [fst snd]. fold (target_path w SystemPrompt.DEFAULT_SYSTEM_PROMPT_ENV_KEY
                         SystemPrompt.DEFAULT_SYSTEM_PROMPT_PATH path). fold target. fold text.
  destruct (fs w target) eqn:Hfs; try reflexivity.
  cbn. destruct (refused target); cbn; rewrite <- app_assoc; reflexivity.
Qed.

(** X1. The template writers never change a file that exists, and touch
    no path but their target: after either of them, every path that
    held something, and every path other than the target, holds what it
    held before. The environment is left alone as well. *)
Theorem template_writers_keep_files (path : option string) (p : string) (w : World) :
  (fs w p ≠ Missing
   ∨ p ≠ target_path w Profile.DEFAULT_PROFILE_ENV_KEY Profile.DEFAULT_PROFILE_PATH path →
   fs (Templates.write_default_profile_template path w).2 p = fs w p)
  ∧ (fs w p ≠ Missing
     ∨ p ≠ target_path w SystemPrompt.DEFAULT_SYSTEM_PROMPT_ENV_KEY
             SystemPrompt.DEFAULT_SYSTEM_PROMPT_PATH path →
     fs (Templates.write_default_system_prompt_template path w).2 p = fs w p)
  ∧ environ (Templates.write_default_profile_template path w).2 = environ w
  ∧ environ (Templates.write_default_system_prompt_template path w).2 = environ w.
Proof.
  rewrite write_default_profile_template_run, write_default_system_prompt_template_run.
  repeat split.
  - intros Hp.
    destruct (fs w (target_path w Profile.DEFAULT_PROFILE_ENV_KEY _ path)) eqn:Hfs;
      try reflexivity.
    destruct (refused _); [reflexivity|]. cbn.
    destruct (String.eqb_spec p (target_path w Profile.DEFAULT_PROFILE_ENV_KEY
                                   Profile.DEFAULT_PROFILE_PATH path)) as [-> | Hne];
      [|reflexivity].
    destruct Hp as [Hp | Hp]; contradiction.
  - intros Hp.
    destruct (fs w (target_path w SystemPrompt.DEFAULT_SYSTEM_PROMPT_ENV_KEY _ path)) eqn:Hfs;
      try reflexivity.
    destruct (refused _); [reflexivity|]. cbn.
    destruct (String.eqb_spec p (target_path w SystemPrompt.DEFAULT_SYSTEM_PROMPT_ENV_KEY
                                   SystemPrompt.DEFAULT_SYSTEM_PROMPT_PATH path)) as [-> | Hne];
      [|reflexivity].
    destruct Hp as [Hp | Hp]; contradiction.
  - destruct (fs w _); try reflexivity. destruct (refused _); reflexivity.
  - destruct (fs w _); try reflexivity. destruct (refused _); reflexivity.
Qed.

Lemma init_profile_created (path : option string) (w : World) :
  let target := target_path w Profile.DEFAULT_PROFILE_ENV_KEY
                  Profile.DEFAULT_PROFILE_PATH path in
  let text := Py.strip Templates.PROFILE_TEMPLATE +:+ Py.LF in
  let line := "Profile ready: " +:+ target in
  let run := Commands.init_profile path w in
  fs w target = Missing → refused target = None →
  fs run.2 target = Holds text
  ∧ (Profile.load_user_profile path run.2).1 = Ok (parsed_profile text)
  ∧ (rich_error line = None →
     run.1 = Ok tt ∧ console run.2 = console w ++ [PanelFit line "" "cyan"])
  ∧ (∀ message, rich_error line = Some message →
     run.1 = Raise (MarkupError message) ∧ console run.2 = console w).
Proof.
  intros target text line run Hm Hr. subst run line.
  unfold Commands.init_profile, mbind, M_bind.
  rewrite write_default_profile_template_run. fold target. rewrite Hm, Hr.
  cbn zeta. fold text. unfold console_print_text.
  assert (Hload : ∀ c w0,
            w0 = with_fs (with_fs_log w (fs_log w ++ [FsExists target; FsOpen target]))
                   (λ p, if String.eqb p target then Holds text else fs w p) →
            (Profile.load_user_profile path (with_console w0 c)).1
            = Ok (parsed_profile text)
            ∧ (Profile.load_user_profile path w0).1 = Ok (parsed_profile text)).
  { intros c w0 ->. rewrite !load_user_profile_run. cbn [fst]. subst target.
    unfold stored_profile, parsed_profile, target_path.
    cbn [fs environ with_console with_fs with_fs_log]. rewrite String.eqb_refl.
    split; reflexivity. }
  destruct (rich_error _) as [m|];
    cbn [fst snd console with_console with_fs with_fs_log fs]; rewrite String.eqb_refl.
  - split; [reflexivity|]. split; [exact (proj2 (Hload [] _ eq_refl))|].
    split; [intros E; discriminate E|].
    intros message E. injection E as <-. split; reflexivity.
  - split; [reflexivity|]. split; [exact (proj1 (Hload _ _ eq_refl))|].
    split; [intros _; split; reflexivity|]. intros message E. discriminate E.
Qed.

Lemma init_system_prompt_created (path : option string) (w : World) :
  let target := target_path w SystemPrompt.DEFAULT_SYSTEM_PROMPT_ENV_KEY
                  SystemPrompt.DEFAULT_SYSTEM_PROMPT_PATH path in
  let text := Py.strip Templates.DEFAULT_SYSTEM_PROMPT_TEMPLATE +:+ Py.LF in
  let line := "System prompt ready: " +:+ target in
  let run := Commands.init_system_prompt path w in
  fs w target = Missing → refused target = None →
  fs run.2 target = Holds text
  ∧ (SystemPrompt.load_system_prompt path run.2).1 = Ok (Some text)
  ∧ (rich_error line = None →
     run.1 = Ok tt ∧ console run.2 = console w ++ [PanelFit line "" "cyan"])
  ∧ (∀ message, rich_error line = Some message →
     run.1 = Raise (MarkupError message) ∧ console run.2 = console w).
Proof.
  intros target text line run Hm Hr. subst run line.
  unfold Commands.init_system_prompt, mbind, M_bind.
  rewrite write_default_system_prompt_template_run. fold target. rewrite Hm, Hr.
  cbn zeta. fold text. unfold console_print_text.
  assert (Hload : ∀ c w0,
            w0 = with_fs (with_fs_log w (fs_log w ++ [FsExists target; FsOpen target]))
                   (λ p, if String.eqb p target then Holds text else fs w p) →
            (SystemPrompt.load_system_prompt path (with_console w0 c)).1 = Ok (Some text)
            ∧ (SystemPrompt.load_system_prompt path w0).1 = Ok (Some text)).
  { intros c w0 ->. rewrite !load_system_prompt_run. cbn [fst]. subst target.
    unfold stored_prompt, target_path.
    cbn [fs environ with_console with_fs with_fs_log]. rewrite String.eqb_refl.
    split; reflexivity. }
  destruct (rich_error _) as [m|];
    cbn [fst snd console with_console with_fs with_fs_log fs]; rewrite String.eqb_refl.
  - split; [reflexivity|]. split; [exact (proj2 (Hload [] _ eq_refl))|].
    split; [intros E; discriminate E|].
    intros message E. injection E as <-. split; reflexivity.
  - split; [reflexivity|]. split; [exact (proj1 (Hload _ _ eq_refl))|].
    split; [intros _; split; reflexivity|]. intros message E. discriminate E.
Qed.

(** X2. When the target is missing and the machine lets it be created,
    [init-profile] and [init-system-prompt] leave there the template,
    stripped and closed by a line feed, and the loader called with the
    same path argument then reads that very text (the profile loader
    returns what PyYAML and pydantic make of it). The command then
    hands rich the line that names the path: it returns once the panel
    is printed, when rich accepts the line; when the path holds markup
    that rich rejects, the command ends with the MarkupError, the file
    written all the same. *)
Theorem init_files_load_back (path : option string) (w : World) :
  (let target := target_path w Profile.DEFAULT_PROFILE_ENV_KEY
                   Profile.DEFAULT_PROFILE_PATH path in
   let text := Py.strip Templates.PROFILE_TEMPLATE +:+ Py.LF in
   let line := "Profile ready: " +:+ target in
   let run := Commands.init_profile path w in
   fs w target = Missing → refused target = None →
   fs run.2 target = Holds text
   ∧ (Profile.load_user_profile path run.2).1 = Ok (parsed_profile text)
   ∧ (rich_error line = None →
      run.1 = Ok tt ∧ console run.2 = console w ++ [PanelFit line "" "cyan"])
   ∧ (∀ message, rich_error line = Some message →
      run.1 = Raise (MarkupError message) ∧ console run.2 = console w))
  ∧ (let target := target_path w SystemPrompt.DEFAULT_SYSTEM_PROMPT_ENV_KEY
                     SystemPrompt.DEFAULT_SYSTEM_PROMPT_PATH path in
     let text := Py.strip Templates.DEFAULT_SYSTEM_PROMPT_TEMPLATE +:+ Py.LF in
     let line := "System prompt ready: " +:+ target in
     let run := Commands.init_system_prompt path w in
     fs w target = Missing → refused target = None →
     fs run.2 target = Holds text
     ∧ (SystemPrompt.load_system_prompt path run.2).1 = Ok (Some text)
     ∧ (rich_error line = None →
        run.1 = Ok tt ∧ console run.2 = console w ++ [PanelFit line "" "cyan"])
     ∧ (∀ message, rich_error line = Some message →
        run.1 = Raise (MarkupError message) ∧ console run.2 = console w)).
Proof.
  split; [exact (init_profile_created path w) | exact (init_system_prompt_created path w)].
Qed.

(** X3. When the target is missing and the machine refuses to create it,
    the init commands raise the error of the machine: nothing is
    printed and every path holds what it held. *)
Theorem init_fails_when_refused (path : option string) (e : exn) (w : World) :
  (let target := target_path w Profile.DEFAULT_PROFILE_ENV_KEY
                   Profile.DEFAULT_PROFILE_PATH path in
   let run := Commands.init_profile path w in
   fs w target = Missing → refused target = Some e →
   run.1 = Raise e ∧ console run.2 = console w ∧ fs run.2 = fs w)
  ∧ (let target := target_path w SystemPrompt.DEFAULT_SYSTEM_PROMPT_ENV_KEY
                     SystemPrompt.DEFAULT_SYSTEM_PROMPT_PATH path in
     let run := Commands.init_system_prompt path w in
     fs w target = Missing → refused target = Some e →
     run.1 = Raise e ∧ console run.2 = console w ∧ fs run.2 = fs w).
Proof.
  split.
  - intros target run Hm Hr. subst run. unfold Commands.init_profile, mbind, M_bind.
    rewrite write_default_profile_template_run. fold target. rewrite Hm, Hr.
    repeat split.
  - intros target run Hm Hr. subst run. unfold Commands.init_system_prompt, mbind, M_bind.
    rewrite write_default_system_prompt_template_run. fold target. rewrite Hm, Hr.
    repeat split.
Qed.

Lemma truthy_app_lf (s : string) : Py.truthy (s +:+ Py.LF) = true.
Proof. destruct s; reflexivity. Qed.

(** X4. After [init-system-prompt] has created the file at its default
    place, the system message of [ask] opens with the template with no
    white space around it, then an empty line, then the generated
    instructions. *)
Theorem init_system_prompt_then_ask (w : World) :
  let target := target_path w SystemPrompt.DEFAULT_SYSTEM_PROMPT_ENV_KEY
                  SystemPrompt.DEFAULT_SYSTEM_PROMPT_PATH None in
  let w' := (Commands.init_system_prompt None w).2 in
  fs w target = Missing → refused target = None →
  (Cli.ask_system_instructions w').1
  = Ok (Py.strip Templates.DEFAULT_SYSTEM_PROMPT_TEMPLATE +:+ Py.LF +:+ Py.LF +:+
        Cli.generated_instructions (zone_time w' (stored_profile w' None)) (utc_now w)
          (Cli.profile_note (stored_profile w' None))).
Proof.
  intros target w' Hm Hr.
  destruct (init_system_prompt_created None w Hm Hr) as (_ & Hload & _).
  fold w' in Hload.
  rewrite load_system_prompt_run in Hload. cbn [fst] in Hload. injection Hload as Hload.
  rewrite ask_system_instructions_run. cbn [fst]. rewrite Hload.
  unfold Cli.prepend_external. rewrite truthy_app_lf, strip_strip_lf.
  assert (Hu : utc_now w' = utc_now w).
  { subst w'. unfold Commands.init_system_prompt, mbind, M_bind.
    rewrite write_default_system_prompt_template_run. fold target. rewrite Hm, Hr.
    cbn zeta. unfold console_print_text. destruct (rich_error _); reflexivity. }
  rewrite Hu. reflexivity.
Qed.

End TemplateFacts.

(** ** show-profile *)

Section ShowProfile.
Context `{External} `{Host}.

Lemma show_profile_run (path : option string) (w : World) :
  Commands.show_profile path w
  = match stored_profile w path with
    | None =>
        (Ok tt,
         with_console (Profile.load_user_profile path w).2
           (console w ++
            [Line "No profile found. Run: python -m calendar_cli.cli init-profile"]))
    | Some pf =>
        match rich_error (Profile.summarize_profile_for_system pf) with
        | None =>
            (Ok tt,
             with_console (Profile.load_user_profile path w).2
               (console w ++
                [PanelFit (Profile.summarize_profile_for_system pf)
                   "User Profile" "magenta"]))
        | Some message => (Raise (MarkupError message), (Profile.load_user_profile path w).2)
        end
    end.
Proof.
  unfold Commands.show_profile, mbind, M_bind. rewrite load_user_profile_run.
  cbn [fst snd]. destruct (stored_profile w path) as [pf|]; [|reflexivity].
  cbn zeta. unfold console_print_text.
  destruct (rich_error (Profile.summarize_profile_for_system pf)); reflexivity.
Qed.

(** X5. [show-profile] prints one thing at most, changes no file and
    calls no service. When the loader returns no profile, which it does
    when the file is absent, cannot be read, or has an invalid content
    that Python does not take for false, it prints the line that no
    profile was found, and returns. Else it hands rich one panel with
    the summary of the loaded profile: the panel is printed when rich
    accepts the summary, and else the command ends with the MarkupError
    and nothing is printed. *)
Theorem show_profile_prints_once (path : option string) (w : World) :
  let run := Commands.show_profile path w in
  let not_found := Line "No profile found. Run: python -m calendar_cli.cli init-profile" in
  fs run.2 = fs w ∧ tool_calls run.2 = tool_calls w ∧ submissions run.2 = submissions w
  ∧ ((Profile.load_user_profile path w).1 = Ok None →
     run.1 = Ok tt ∧ console run.2 = console w ++ [not_found])
  ∧ (profile_file_bad w path → ¬ falsy_document w path →
     run.1 = Ok tt ∧ console run.2 = console w ++ [not_found])
  ∧ (∀ pf, (Profile.load_user_profile path w).1 = Ok (Some pf) →
     rich_error (Profile.summarize_profile_for_system pf) = None →
     run.1 = Ok tt
     ∧ console run.2
       = console w ++
         [PanelFit (Profile.summarize_profile_for_system pf) "User Profile" "magenta"])
  ∧ (∀ pf message, (Profile.load_user_profile path w).1 = Ok (Some pf) →
     rich_error (Profile.summarize_profile_for_system pf) = Some message →
     run.1 = Raise (MarkupError message) ∧ console run.2 = console w).
Proof.
  intros run not_found. subst run not_found.
  rewrite show_profile_run, load_user_profile_run. cbn [fst snd].
  split; [|split; [|split; [|split; [|split; [|split]]]]].
  - destruct (stored_profile w path) as [pf|]; [|reflexivity].
    destruct (rich_error _); reflexivity.
  - destruct (stored_profile w path) as [pf|]; [|reflexivity].
    destruct (rich_error _); reflexivity.
  - destruct (stored_profile w path) as [pf|]; [|reflexivity].
    destruct (rich_error _); reflexivity.
  - intros Hnone. injection Hnone as ->. split; reflexivity.
  - intros Hbad Hfalsy. rewrite (stored_profile_bad path w Hbad Hfalsy). split; reflexivity.
  - intros pf Hpf Hrich. injection Hpf as ->. rewrite Hrich. split; reflexivity.
  - intros pf message Hpf Hrich. injection Hpf as ->. rewrite Hrich. split; reflexivity.
Qed.

Lemma append_empty_r (s : string) : s +:+ "" = s.
Proof.
  induction s as [|c s IH]; [reflexivity|].
  change (String c (s +:+ "") = String c s). f_equal. exact IH.
Qed.

Lemma ends_with_app (a text suffix : string) :
  ends_with text suffix → ends_with (a +:+ text) suffix.
Proof.
  intros [prefix ->]. exists (a +:+ prefix). symmetry. apply append_assoc.
Qed.

Lemma prepend_external_ends_with (ep : option string) (text suffix : string) :
  ends_with text suffix → ends_with (Cli.prepend_external ep text) suffix.
Proof.
  intros Hs. unfold Cli.prepend_external.
  destruct ep as [ep|]; [|exact Hs]. destruct (Py.truthy ep); [|exact Hs].
  do 3 apply ends_with_app. exact Hs.
Qed.

(** X6. What [show-profile] shows is what the agent is told: when it
    prints the panel of the default profile, the system message of
    [ask] ends with an empty line and the body of that panel; when it
    prints that no profile was found, the system message ends with the
    UTC time stamp, with no profile section after it. *)
Theorem ask_tells_what_show_profile_shows (w : World) :
  (∀ body : string,
     console (Commands.show_profile None w).2
     = console w ++ [PanelFit body "User Profile" "magenta"] →
     ∃ text, (Cli.ask_system_instructions w).1 = Ok text
             ∧ ends_with text (Py.LF +:+ Py.LF +:+ body))
  ∧ (console (Commands.show_profile None w).2
     = console w ++ [Line "No profile found. Run: python -m calendar_cli.cli init-profile"] →
     ∃ text, (Cli.ask_system_instructions w).1 = Ok text
             ∧ ends_with text
                 ("Şu anki tarih-saat (UTC):   " +:+ strftime (utc_now w) Cli.STAMP_FORMAT)).
Proof.
  rewrite show_profile_run, ask_system_instructions_run, load_user_profile_run.
  cbn [fst snd].
  split.
  - intros body Hc. destruct (stored_profile w None) as [pf|].
    + destruct (rich_error (Profile.summarize_profile_for_system pf)).
      * exfalso. cbn [snd console with_fs_log] in Hc.
        apply (f_equal length) in Hc. rewrite length_app in Hc. cbn [length] in Hc. lia.
      * cbn [snd console with_console] in Hc. apply app_inv_head in Hc.
        injection Hc as Hc. eexists. split; [reflexivity|].
        apply prepend_external_ends_with.
        unfold Cli.generated_instructions, Cli.profile_note.
        rewrite Hc. do 6 apply ends_with_app. exists "". reflexivity.
    + cbn [snd console with_console] in Hc. apply app_inv_head in Hc. discriminate Hc.
  - intros Hc. destruct (stored_profile w None) as [pf|].
    + exfalso. destruct (rich_error (Profile.summarize_profile_for_system pf)).
      * cbn [snd console with_fs_log] in Hc.
        apply (f_equal length) in Hc. rewrite length_app in Hc. cbn [length] in Hc. lia.
      * cbn [snd console with_console] in Hc. apply app_inv_head in Hc. discriminate Hc.
    + eexists. split; [reflexivity|].
      apply prepend_external_ends_with.
      unfold Cli.generated_instructions, Cli.profile_note.
      do 4 apply ends_with_app.
      exists "". rewrite append_empty_r. reflexivity.
Qed.

End ShowProfile.

(** ** env-info *)

Section EnvInfo.
Context `{External} `{Host}.

(** X7. [env-info] does not show the secrets: two environments that
    agree on the other variables, and on which of the two keys are set,
    give the same table, and the cell of each key reads SET or a dash. *)
Theorem env_info_hides_secrets (w1 w2 : World) :
  same_public_environment w1 w2 →
  ∃ t : table,
    (Commands.env_info w1).1 = Ok t ∧ (Commands.env_info w2).1 = Ok t
    ∧ (table_cell t "GOOGLE_API_KEY" = Some "SET" ∨ table_cell t "GOOGLE_API_KEY" = Some "-")
    ∧ (table_cell t "LANGSMITH_API_KEY" = Some "SET"
       ∨ table_cell t "LANGSMITH_API_KEY" = Some "-").
Proof.
  intros (Hpub & Hg & Hl). eexists. split; [reflexivity|].
  unfold Commands.env_info, os_getenv, os_getenv_default, mbind, M_bind, mret, M_ret.
  cbn [fst snd]. unfold Commands.set_or_dash.
  rewrite <- Hg, <- Hl.
  rewrite <- !(Hpub _) by discriminate.
  split; [reflexivity|]. unfold table_cell. cbn.
  destruct (Py.truthy_opt Py.truthy (environ w1 !! "GOOGLE_API_KEY")),
           (Py.truthy_opt Py.truthy (environ w1 !! "LANGSMITH_API_KEY")); tauto.
Qed.

(** X8. [env-info] reports the settings the other code really uses: the
    model it shows is the one [build_llm] asks for, and the default time
    zone it shows is the one [quick-create] falls back on (and then
    strips and normalises) when neither the option nor the profile
    names a zone, an empty name counting for none. *)
Theorem env_info_shows_effective_settings (summary start end_ : string)
    (opt_timezone location description color_id : option string)
    (d1 d2 : datetime) (pf : option UserProfile) (w : World) :
  ∃ (t : table) (model zone : string),
    (Commands.env_info w).1 = Ok t
    ∧ table_cell t "GEMINI_MODEL" = Some model
    ∧ table_cell t "CLI_DEFAULT_TIMEZONE" = Some zone
    ∧ (Agent.build_llm w).1 = init_chat_model model "google_genai"
    ∧ (api_key_set w →
       strptime start Cli.DATETIME_FORMAT = Some d1 →
       strptime end_ Cli.DATETIME_FORMAT = Some d2 →
       (Profile.load_user_profile None w).1 = Ok pf →
       tool_error w = None →
       given opt_timezone = None →
       given (pf ≫= timezone) = None →
       ∃ payload : gmap string string,
         tool_calls (Cli.quick_create summary start end_ opt_timezone location description
                       color_id w).2
         = tool_calls w ++ [payload]
         ∧ payload !! "timezone" = Some (Cli.normalize_tz zone)).
Proof.
  eexists _, _, _. split; [reflexivity|].
  split; [reflexivity|]. split; [reflexivity|]. split; [reflexivity|].
  intros Hk H1 H2 Hpf Htool Hopt Hnone.
  rewrite load_user_profile_run in Hpf. cbn [fst] in Hpf. injection Hpf as <-.
  rewrite (quick_create_run _ _ _ _ _ _ _ d1 d2 w Hk H1 H2), Htool.
  eexists. split.
  - destruct (create_event w (tool_calls w) _) as [r|e]; [|reflexivity].
    destruct (rich_error (str_tool_result r)); reflexivity.
  - rewrite build_payload_timezone. unfold preferred_tz. rewrite Hopt, Hnone.
    destruct (environ w !! "CLI_DEFAULT_TIMEZONE"); reflexivity.
Qed.

End EnvInfo.

(** ** The key is asked for first *)

Section KeyGate.
Context `{External} `{Host}.

Lemma require_key_missing (w : World) :
  ¬ api_key_set w →
  Cli.require_google_api_key w
  = (Raise (Exit 1), with_console w (console w ++ KEY_MISSING_LINES)).
Proof.
  intros Hno. unfold Cli.require_google_api_key, os_getenv, mbind, M_bind.
  destruct (environ w !! "GOOGLE_API_KEY") as [[|c r]|] eqn:Hk; cbn.
  - rewrite <- app_assoc. reflexivity.
  - exfalso. apply Hno. exists (String c r). split; [exact Hk | discriminate].
  - rewrite <- app_assoc. reflexivity.
Qed.

(** X9. Without a Google API key (unset, or empty) the four commands that
    reach Google stop at once: [ask], [quick-create], [tools] and
    [list-calendars] print the two lines about the key and exit with
    code 1. No banner is drawn, no line is read, no file is opened and
    no service is called, whatever the arguments. *)
Theorem commands_exit_without_api_key (prompt : option string) (lines : list string)
    (summary start end_ : string)
    (opt_timezone location description color_id : option string) (w : World) :
  ¬ api_key_set w →
  let stopped := (Raise (Exit 1), with_console w (console w ++ KEY_MISSING_LINES)) in
  Cli.ask prompt lines w = stopped
  ∧ Cli.quick_create summary start end_ opt_timezone location description color_id w
    = stopped
  ∧ Commands.tools w = (Raise (Exit 1), with_console w (console w ++ KEY_MISSING_LINES))
  ∧ Commands.list_calendars w
    = (Raise (Exit 1), with_console w (console w ++ KEY_MISSING_LINES)).
Proof.
  intros Hno stopped. subst stopped.
  unfold Cli.ask, Cli.quick_create, Commands.tools, Commands.list_calendars, mbind, M_bind.
  rewrite (require_key_missing w Hno). repeat split.
Qed.

End KeyGate.

(** ** list-calendars *)

Section ListCalendars.
Context `{External} `{Host}.

Lemma decode_step (out : pyval) (w : World) :
  try_except
    (match out with
     | PStr text => lift (json_loads text)
     | _ => mret out
     end)
    is_Exception (mret out) w
  = (Ok (loaded_data out), w).
Proof.
  unfold try_except, loaded_data, lift, is_Exception.
  destruct out; try reflexivity. destruct (json_loads s); reflexivity.
Qed.

Lemma rows_of_dicts (dicts : list (list (string * pyval))) (w : World) :
  map_M Commands.calendar_row (map PDict dicts) w
  = (Ok (map (fun items => [field_text items "summary"; field_text items "id"]) dicts), w).
Proof.
  induction dicts as [|items rest IH]; [reflexivity|].
  cbn [map map_M]. unfold mbind, M_bind.
  unfold Commands.calendar_row at 1, Commands.dict_get, mbind, M_bind, mret, M_ret.
  rewrite IH. reflexivity.
Qed.

Lemma rows_with_stranger (cals : list pyval) (w : World) :
  Exists (fun v => is_dict v = false) cals →
  map_M Commands.calendar_row cals w = (Raise (RuntimeException "AttributeError"), w).
Proof.
  induction 1 as [v rest Hv | v rest Hex IH].
  - destruct v; try discriminate Hv; reflexivity.
  - cbn [map_M]. unfold mbind, M_bind.
    destruct v; try reflexivity.
    unfold Commands.calendar_row at 1, Commands.dict_get, mbind, M_bind, mret, M_ret.
    rewrite IH. reflexivity.
Qed.

Lemma list_calendars_run (out : pyval) (w : World) :
  api_key_set w → get_calendars_info = Ok out →
  Commands.list_calendars w
  = match loaded_data out with
    | PList cals =>
        match map_M Commands.calendar_row cals w with
        | (Ok rows, w') => (Ok (mkTable "Calendars" ["Summary"; "ID"] rows), w')
        | (Raise e, w') => (Raise e, w')
        end
    | _ => (Ok (mkTable "Calendars" ["Summary"; "ID"] [["(unparsed)"; py_str out]]), w)
    end.
Proof.
  intros Hk Hout. unfold Commands.list_calendars, mbind, M_bind.
  rewrite (require_key_ok w Hk), Hout. unfold lift at 1.
  rewrite decode_step.
  destruct (loaded_data out); reflexivity.
Qed.

(** X10. When the output of the tool, decoded as JSON where it is a text
    that decodes, is not a list, the table [list-calendars] builds has
    the single row [(unparsed)] followed by the output as the tool gave
    it. *)
Theorem list_calendars_unparsed (out : pyval) (w : World) :
  api_key_set w → get_calendars_info = Ok out →
  (∀ cals, loaded_data out ≠ PList cals) →
  Commands.list_calendars w
  = (Ok (mkTable "Calendars" ["Summary"; "ID"] [["(unparsed)"; py_str out]]), w).
Proof.
  intros Hk Hout Hno. rewrite (list_calendars_run out w Hk Hout).
  destruct (loaded_data out) eqn:Hd; try reflexivity.
  exfalso. apply (Hno items). reflexivity.
Qed.

(** X11. When the answer is a list of dictionaries, the table has one
    row per calendar, in the order of the list: the summary and the id
    of the calendar, a missing key showing as the empty text. *)
Theorem list_calendars_rows (out : pyval) (dicts : list (list (string * pyval)))
    (w : World) :
  api_key_set w → get_calendars_info = Ok out →
  loaded_data out = PList (map PDict dicts) →
  Commands.list_calendars w
  = (Ok (mkTable "Calendars" ["Summary"; "ID"]
           (map (fun items => [field_text items "summary"; field_text items "id"]) dicts)),
     w).
Proof.
  intros Hk Hout Hd. rewrite (list_calendars_run out w Hk Hout), Hd, rows_of_dicts.
  reflexivity.
Qed.

(** X12. When the answer is a list with an entry that is not a
    dictionary, [list-calendars] raises the AttributeError of [cal.get];
    nothing catches it and no table is made. *)
Theorem list_calendars_stranger (out : pyval) (cals : list pyval) (w : World) :
  api_key_set w → get_calendars_info = Ok out →
  loaded_data out = PList cals →
  Exists (fun v => is_dict v = false) cals →
  Commands.list_calendars w = (Raise (RuntimeException "AttributeError"), w).
Proof.
  intros Hk Hout Hd Hex.
  rewrite (list_calendars_run out w Hk Hout), Hd, (rows_with_stranger cals w Hex).
  reflexivity.
Qed.

End ListCalendars.

(** ** More on ask and quick-create *)

Section AskOpening.
Context `{External} `{Host}.

(** When the agent cannot be built, [ask] stops after the banner. *)
Lemma ask_without_agent (prompt : option string) (lines : list string) (e : exn)
    (w : World) :
  api_key_set w → executor_error w = Some e →
  Cli.ask prompt lines w = (Raise e, with_console w (console w ++ [Banner])).
Proof.
  intros Hk He. unfold Cli.ask, mbind, M_bind.
  rewrite (require_key_ok w Hk). unfold console_print at 1.
  unfold Cli.build_agent_executor. cbn [executor_error with_console].
  rewrite He. reflexivity.
Qed.

(** X13. When [ask] is started without a first message (none, or an
    empty one) and the agent is built, it reads one line: the
    conversation opens with the default request when that line is
    empty, and with the line stripped otherwise; the first list the
    runtime receives is the system message followed by that user
    message. When the agent cannot be built, the command ends with that
    exception after the banner: no line is read and nothing is
    submitted. *)
Theorem ask_opens_with_typed_or_default (prompt : option string) (raw : string)
    (rest : list string) (w : World) :
  api_key_set w →
  prompt = None ∨ prompt = Some "" →
  let opening := match raw with
                 | EmptyString => Cli.DEFAULT_PROMPT
                 | String _ _ => Py.strip raw
                 end in
  (executor_error w = None →
   ∃ (si : string) (later : list (list message)),
     (Cli.ask_system_instructions w).1 = Ok si
     ∧ submissions (Cli.ask prompt (raw :: rest) w).2
       = submissions w ++ [Tuple "system" si; Tuple "user" opening] :: later)
  ∧ (∀ e, executor_error w = Some e →
     Cli.ask prompt (raw :: rest) w = (Raise e, with_console w (console w ++ [Banner]))).
Proof.
  intros Hk Hp opening. split; [|intros e He; exact (ask_without_agent _ _ e w Hk He)].
  intros Hx. unfold Cli.ask, mbind, M_bind.
  rewrite (require_key_ok w Hk). unfold console_print at 1.
  unfold Cli.build_agent_executor. cbn [executor_error with_console]. rewrite Hx.
  assert (Hask : match prompt with
                 | Some p0 =>
                     if Py.truthy p0 then mret (p0, raw :: rest)
                     else Cli.Prompt_ask Cli.DEFAULT_PROMPT (raw :: rest)
                 | None => Cli.Prompt_ask Cli.DEFAULT_PROMPT (raw :: rest)
                 end = mret (opening, rest)).
  { destruct Hp as [-> | ->]; subst opening; destruct raw; reflexivity. }
  rewrite Hask. cbn [mret M_ret].
  rewrite !ask_system_instructions_run. cbn [fst snd].
  unfold console_print.
  match goal with
  | |- context [Cli.ask_loop rest ?ms ?w0] =>
      destruct (ask_loop_submits rest ms w0) as [later Hl]
  end.
  eexists _, later. split; [reflexivity|].
  rewrite Hl. rewrite load_system_prompt_run, load_user_profile_run. reflexivity.
Qed.




Lemma build_payload_lookup (summary start end_ tz : string)
    (location description color_id : option string) :
  let payload := Cli.build_payload summary start end_ tz location description color_id in
  payload !! "summary" = Some summary
  ∧ payload !! "start_datetime" = Some (start +:+ ":00")
  ∧ payload !! "end_datetime" = Some (end_ +:+ ":00")
  ∧ payload !! "location" = given location
  ∧ payload !! "description" = given description
  ∧ payload !! "color_id" = given color_id
  ∧ ∀ k : string, k ∉ PAYLOAD_KEYS → payload !! k = None.
Proof.
  intros payload. subst payload. unfold Cli.build_payload, Cli.set_if, given.
  repeat split;
    try (destruct location as [[|? ?]|], description as [[|? ?]|], color_id as [[|? ?]|];
         cbn [Py.truthy];
         repeat first [ rewrite lookup_insert_eq
                      | rewrite lookup_insert_ne by discriminate
                      | rewrite lookup_empty ];
         reflexivity).
  intros k Hk. unfold PAYLOAD_KEYS in Hk.
  rewrite !not_elem_of_cons in Hk.
  destruct Hk as (H1 & H2 & H3 & H4 & H5 & H6 & H7 & _).
  destruct location as [[|? ?]|], description as [[|? ?]|], color_id as [[|? ?]|];
    cbn [Py.truthy];
    repeat (rewrite lookup_insert_ne by (intros E; symmetry in E; contradiction));
    apply lookup_empty.
Qed.

(** X15. The payload [quick-create] sends holds the title, the two dates
    each followed by [:00], and the time zone; the location, the
    description and the colour are there exactly when they were given
    and are not empty; it has no other key. It is sent once the tool is
    built; when building the tool fails, nothing is sent. *)
Theorem quick_create_payload_fields (summary start end_ : string)
    (opt_timezone location description color_id : option string)
    (d1 d2 : datetime) (w : World) :
  api_key_set w →
  strptime start Cli.DATETIME_FORMAT = Some d1 →
  strptime end_ Cli.DATETIME_FORMAT = Some d2 →
  (tool_error w = None →
   ∃ payload : gmap string string,
     tool_calls (Cli.quick_create summary start end_ opt_timezone location description
                   color_id w).2
     = tool_calls w ++ [payload]
     ∧ payload !! "summary" = Some summary
     ∧ payload !! "start_datetime" = Some (start +:+ ":00")
     ∧ payload !! "end_datetime" = Some (end_ +:+ ":00")
     ∧ is_Some (payload !! "timezone")
     ∧ payload !! "location" = given location
     ∧ payload !! "description" = given description
     ∧ payload !! "color_id" = given color_id
     ∧ ∀ k : string, k ∉ PAYLOAD_KEYS → payload !! k = None)
  ∧ (∀ e, tool_error w = Some e →
     tool_calls (Cli.quick_create summary start end_ opt_timezone location description
                   color_id w).2
     = tool_calls w).
Proof.
  intros Hk H1 H2.
  rewrite (quick_create_run _ _ _ _ _ _ _ d1 d2 w Hk H1 H2).
  split; [|intros e He; rewrite He, load_user_profile_run; reflexivity].
  intros Htool. rewrite Htool.
  eexists. split.
  - destruct (create_event w (tool_calls w) _) as [r|e]; [|reflexivity].
    destruct (rich_error (str_tool_result r)); reflexivity.
  - pose proof (build_payload_lookup summary start end_
                  (Cli.normalize_tz (preferred_tz opt_timezone (stored_profile w None)
                                       (environ w)))
                  location description color_id) as (A & B & C & D & E & F & G).
    repeat split; try assumption.
    rewrite build_payload_timezone. eexists. reflexivity.
Qed.

End AskOpening.

(** ** preview-banner *)

Section PreviewBanner.
Context `{External} `{Host}.

(** What the [try] block of [preview_banner] does: it prints one item
    and returns, or it raises and leaves the terminal as it was. *)
Lemma preview_body_cases (font color : string) (w : World) :
  let body :=
    (fonts ← lift figlet_fonts;
     if negb (bool_decide (font ∈ fonts))
     then
       let text := "[red]Unknown font:[/red] " +:+ font in
       console_print_text text (Line text)
     else
       first_block ← lift (figlet_render font "Time Management");
       second_block ← lift (figlet_render font "Agent");
       Commands.print_preview_panel (first_block +:+ Py.LF +:+ second_block) color) in
  (∃ item, body w = (Ok tt, with_console w (console w ++ [item])))
  ∨ (∃ e, body w = (Raise e, w)).
Proof.
  intros body. subst body.
  unfold mbind, M_bind, lift, console_print_text, Commands.print_preview_panel.
  destruct figlet_fonts as [fonts|e0]; [|right; eexists; reflexivity].
  destruct (negb (bool_decide (font ∈ fonts))).
  - cbn zeta. destruct (rich_error _); [right | left]; eexists; reflexivity.
  - destruct (figlet_render font "Time Management") as [a|e1];
      [|right; eexists; reflexivity].
    destruct (figlet_render font "Agent") as [b|e2]; [|right; eexists; reflexivity].
    destruct (panel_error _ color); [right | left]; eexists; reflexivity.
Qed.

Lemma with_console_same (w : World) : with_console w (console w ++ []) = w.
Proof. destruct w. unfold with_console. cbn. rewrite app_nil_r. reflexivity. Qed.

(** X16. [preview-banner] saves nothing: it writes on the terminal only.
    It returns after printing exactly one item; the only exception that
    leaves it is the MarkupError of the print in its [except] branch,
    and nothing is printed then. A font pyfiglet does not list gives
    the line about the unknown font, when rich accepts that line; when
    the name of the font holds markup that rich rejects, the [except]
    branch takes the MarkupError and hands rich the line about the
    failed preview, with the message of the error. A failure of
    pyfiglet gives that line with the text of the failure. *)
Theorem preview_banner_prints_once (font color : string) (w : World) :
  let run := Commands.preview_banner font color w in
  let unknown := "[red]Unknown font:[/red] " +:+ font in
  let failed := λ e : exn, "[red]Preview failed:[/red] " +:+ exn_text e in
  (∃ items : list console_item,
     run.2 = with_console w (console w ++ items)
     ∧ (run.1 = Ok tt → length items = 1%nat)
     ∧ (∀ e, run.1 = Raise e → items = [] ∧ ∃ message, e = MarkupError message))
  ∧ (∀ fonts, figlet_fonts = Ok fonts → font ∉ fonts → rich_error unknown = None →
     run = (Ok tt, with_console w (console w ++ [Line unknown])))
  ∧ (∀ fonts message, figlet_fonts = Ok fonts → font ∉ fonts →
     rich_error unknown = Some message →
     run = console_print_text (failed (MarkupError message))
             (Line (failed (MarkupError message))) w)
  ∧ (∀ e, figlet_fonts = Raise e →
     run = console_print_text (failed e) (Line (failed e)) w)
  ∧ (∀ fonts e, figlet_fonts = Ok fonts → font ∈ fonts →
     figlet_render font "Time Management" = Raise e →
     run = console_print_text (failed e) (Line (failed e)) w).
Proof.
  intros run unknown failed. subst run unknown failed.
  split; [|split; [|split; [|split]]].
  - unfold Commands.preview_banner, try_except_as.
    destruct (preview_body_cases font color w) as [[item Hb] | [e Hb]];
      cbn zeta in Hb; rewrite Hb.
    + exists [item]. split; [reflexivity|]. split; [reflexivity|].
      intros e E. discriminate E.
    + cbn zeta. unfold console_print_text. destruct (rich_error _) as [m|].
      * exists []. split; [symmetry; apply with_console_same|].
        split; [intros E; discriminate E|].
        intros e' E. injection E as <-. split; [reflexivity | eexists; reflexivity].
      * eexists [_]. split; [reflexivity|]. split; [reflexivity|].
        intros e' E. discriminate E.
  - intros fonts Hf Hout Hrich.
    unfold Commands.preview_banner, try_except_as, mbind, M_bind, lift.
    rewrite Hf. rewrite (bool_decide_eq_false_2 _ Hout). cbn [negb]. cbn zeta.
    unfold console_print_text at 1. rewrite Hrich. reflexivity.
  - intros fonts message Hf Hout Hrich.
    unfold Commands.preview_banner, try_except_as, mbind, M_bind, lift.
    rewrite Hf. rewrite (bool_decide_eq_false_2 _ Hout). cbn [negb]. cbn zeta.
    unfold console_print_text at 1. rewrite Hrich. reflexivity.
  - intros e Hf.
    unfold Commands.preview_banner, try_except_as, mbind, M_bind, lift.
    rewrite Hf. reflexivity.
  - intros fonts e Hf Hin Hr.
    unfold Commands.preview_banner, try_except_as, mbind, M_bind, lift.
    rewrite Hf. rewrite (bool_decide_eq_true_2 _ Hin). cbn [negb].
    rewrite Hr. reflexivity.
Qed.

End PreviewBanner.

(** ** The path the loaders look at *)

Section LoaderPath.
Context `{External} `{Host}.

(** X17. A loader looks at one path only: the argument when it is given
    and not empty, else the value of its environment variable when that
    is set (even to the empty text), else its default name. It tests
    that the path exists, opens it only if it does, and changes no file. *)
Theorem loaders_look_at_one_path (path : option string) (w : World) :
  let profile_path :=
    match given path with
    | Some p => p
    | None => default "user_profile.yaml" (environ w !! "CALENDAR_CLI_PROFILE")
    end in
  let prompt_path :=
    match given path with
    | Some p => p
    | None => default "system_prompt.md" (environ w !! "CALENDAR_CLI_SYSTEM_PROMPT")
    end in
  fs_log (Profile.load_user_profile path w).2
  = fs_log w ++ FsExists profile_path ::
      match fs w profile_path with Missing => [] | _ => [FsOpen profile_path] end
  ∧ fs_log (SystemPrompt.load_system_prompt path w).2
    = fs_log w ++ FsExists prompt_path ::
        match fs w prompt_path with Missing => [] | _ => [FsOpen prompt_path] end
  ∧ fs (Profile.load_user_profile path w).2 = fs w
  ∧ fs (SystemPrompt.load_system_prompt path w).2 = fs w.
Proof.
  intros profile_path prompt_path.
  rewrite load_user_profile_run, load_system_prompt_run. cbn [snd fs_log with_fs_log fs].
  assert (Hp : target_path w Profile.DEFAULT_PROFILE_ENV_KEY Profile.DEFAULT_PROFILE_PATH path
               = profile_path).
  { subst profile_path. unfold target_path, Py.or_else, given.
    destruct path as [[|c r]|]; reflexivity. }
  assert (Hs : target_path w SystemPrompt.DEFAULT_SYSTEM_PROMPT_ENV_KEY
                 SystemPrompt.DEFAULT_SYSTEM_PROMPT_PATH path = prompt_path).
  { subst prompt_path. unfold target_path, Py.or_else, given.
    destruct path as [[|c r]|]; reflexivity. }
  rewrite Hp, Hs. unfold loader_accesses.
  repeat split.
Qed.

End LoaderPath.

(** ** The properties at work on the demo worlds *)

#[local] Existing Instance Demo.ext.

Lemma ask_ends_iff_exit_word_witness :
  Cli.dispatch Demo.seed Demo.world
  = (Ok (Demo.seed ++ [Demo.reply]), (Cli.dispatch Demo.seed Demo.world).2)
  ∧ exit_word (Demo.nbsp +:+ " Quit ")
  ∧ Cli.ask_loop [Demo.nbsp +:+ " Quit "; "more"] Demo.seed Demo.world
    = (Ok tt, (Cli.dispatch Demo.seed Demo.world).2).
Proof.
  assert (Hd : Cli.dispatch Demo.seed Demo.world
               = (Ok (Demo.seed ++ [Demo.reply]), (Cli.dispatch Demo.seed Demo.world).2))
    by reflexivity.
  assert (Hx : exit_word (Demo.nbsp +:+ " Quit ")) by (right; left; reflexivity).
  split; [exact Hd|]. split; [exact Hx|].
  destruct (ask_ends_iff_exit_word Demo.seed (Demo.nbsp +:+ " Quit ")) as (_ & _ & Hloop).
  destruct (Hloop ["more"] _ _ _ Hd) as [Hexit _].
  exact (Hexit Hx).
Defined.

Lemma summary_has_one_bullet_per_field_witness :
  (timezone Demo.istanbul = Some "Europe/Istanbul"
   ∧ "Europe/Istanbul" ≠ ""
   ∧ (∀ c, c ≠ CTimezone → nonempty Demo.istanbul c = false)
   ∧ Profile.summarize_profile_for_system Demo.istanbul
     = "Kullanıcı Profili:" +:+ Py.LF +:+ "- Zaman dilimi: Europe/Istanbul")
  ∧ Profile.summarize_profile_for_system Demo.office
    = "Kullanıcı Profili:" +:+ Py.LF +:+
      "- Zaman dilimi: Europe/Istanbul" +:+ Py.LF +:+
      "- Çalışma günleri: mon, tue" +:+ Py.LF +:+
      "- Çalışma saatleri: mon: 09:00-18:00; tue: 10:00-16:00" +:+ Py.LF +:+
      "- Öğle arası: 12:30-13:30" +:+ Py.LF +:+
      "- Toplantı kaçınma: Fri 14:00-16:00" +:+ Py.LF +:+
      "- Derin odak tercihleri: 09:00-11:00; 16:00-18:00" +:+ Py.LF +:+
      "- Kaçınılacak saatler: 18:00-21:00".
Proof.
  assert (Hrest : ∀ c, c ≠ CTimezone → nonempty Demo.istanbul c = false).
  { intros c Hc. destruct c; [contradiction| | | | | |]; reflexivity. }
  assert (Hne : "Europe/Istanbul" ≠ "") by discriminate.
  split.
  - split; [reflexivity|]. split; [exact Hne|]. split; [exact Hrest|].
    destruct (summary_has_one_bullet_per_field Demo.istanbul) as (_ & Hone & _).
    exact (Hone "Europe/Istanbul" eq_refl Hne Hrest).
  - destruct (summary_has_one_bullet_per_field Demo.office) as (_ & _ & Hall).
    apply (Hall "Europe/Istanbul" ["mon"; "tue"]
             [("mon", "09:00-18:00"); ("tue", "10:00-16:00")] "12:30-13:30"
             ["Fri 14:00-16:00"] ["09:00-11:00"; "16:00-18:00"] ["18:00-21:00"]);
      first [reflexivity | discriminate].
Defined.

Lemma notes_never_reach_summary_witness :
  same_but_notes Demo.office Demo.other_notes
  ∧ notes Demo.office ≠ notes Demo.other_notes
  ∧ Profile.summarize_profile_for_system Demo.office
    = Profile.summarize_profile_for_system Demo.other_notes.
Proof.
  assert (Hs : same_but_notes Demo.office Demo.other_notes) by (repeat split).
  split; [exact Hs|]. split; [discriminate|].
  apply notes_never_reach_summary. exact Hs.
Defined.

Lemma invalid_profile_loads_as_empty_witness :
  fs Demo.listed "user_profile.yaml" = Holds "[]"
  ∧ yaml_safe_load "[]" = Ok Demo.YEmptyList
  ∧ model_validate Demo.YEmptyList = Raise ValidationError
  ∧ profile_file_bad Demo.listed None
  ∧ (Profile.load_user_profile None Demo.listed).1 = Ok (Some EMPTY_PROFILE)
  ∧ (Cli.ask_system_instructions Demo.listed).1
    = Ok (Cli.generated_instructions (local_now Demo.listed) (utc_now Demo.listed)
            (Py.LF +:+ Py.LF +:+ "Kullanıcı Profili:")).
Proof.
  split; [reflexivity|]. split; [reflexivity|]. split; [reflexivity|].
  destruct (@invalid_profile_loads_as_empty Demo.ext None "[]" Demo.YEmptyList
              ValidationError Demo.listed eq_refl eq_refl eq_refl eq_refl eq_refl)
    as (Hbad & Hload & Hask).
  split; [exact Hbad|]. split; [exact Hload|]. exact (Hask eq_refl).
Defined.

(** The loaders on files that are locked or broken. *)
Example loaders_return_test :
  (Profile.load_user_profile (Some "broken.yaml") Demo.world).1 = Ok None
  ∧ (Profile.load_user_profile (Some "locked.yaml") Demo.world).1 = Ok None
  ∧ (SystemPrompt.load_system_prompt (Some "locked.yaml") Demo.world).1 = Ok None
  ∧ (Cli.ask_system_instructions Demo.bare).1
    = Ok (Cli.generated_instructions (local_now Demo.bare) (utc_now Demo.bare) "").
Proof. repeat split. Qed.

Lemma external_prompt_goes_first_witness :
  (SystemPrompt.load_system_prompt None Demo.world).1 = Ok (Some "  Be brief.  ")
  ∧ "  Be brief.  " ≠ ""
  ∧ (Cli.ask_system_instructions Demo.world).1
    = Ok ("Be brief." +:+ Py.LF +:+ Py.LF +:+
          Cli.generated_instructions "2026-01-01 12:00:00 +03+0300"
            "2026-01-01 09:00:00 UTC+0000"
            (Cli.profile_note (Some Demo.istanbul))).
Proof.
  assert (Hne : "  Be brief.  " ≠ "") by discriminate.
  split; [reflexivity|]. split; [exact Hne|].
  exact (proj1 (external_prompt_goes_first Demo.world) "  Be brief.  " eq_refl Hne).
Defined.

(** C5 as it was stated does not hold of an override that is present
    and empty: [load_system_prompt] hands over the empty text, and the
    system message is the generated text alone, not the empty line
    followed by it. *)
Lemma empty_override_is_dropped :
  fs Demo.hollow "system_prompt.md" = Holds ""
  ∧ (SystemPrompt.load_system_prompt None Demo.hollow).1 = Ok (Some "")
  ∧ (Cli.ask_system_instructions Demo.hollow).1
    = Ok (Cli.generated_instructions (local_now Demo.hollow) (utc_now Demo.hollow) "")
  ∧ (Cli.ask_system_instructions Demo.hollow).1
    ≠ Ok (Py.strip "" +:+ Py.LF +:+ Py.LF +:+
          Cli.generated_instructions (local_now Demo.hollow) (utc_now Demo.hollow) "").
Proof.
  split; [reflexivity|]. split; [reflexivity|]. split; [reflexivity|].
  intros E.
  apply (f_equal (λ r : result string,
                    match r with Ok text => String.length text | Raise _ => 0%nat end)) in E.
  vm_compute in E. discriminate E.
Qed.

Lemma system_instructions_deterministic_witness :
  resolved_inputs Demo.world = resolved_inputs Demo.elsewhere
  ∧ environ Demo.world ≠ environ Demo.elsewhere
  ∧ (Cli.ask_system_instructions Demo.world).1
    = (Cli.ask_system_instructions Demo.elsewhere).1.
Proof.
  split; [reflexivity|]. split.
  - intros E. apply (f_equal (λ m : gmap string string, m !! "CLI_DEFAULT_TIMEZONE")) in E.
    vm_compute in E. discriminate E.
  - exact (proj1 (system_instructions_deterministic Demo.world Demo.elsewhere) eq_refl).
Defined.



Lemma quick_create_rejects_bad_datetime_witness :
  strptime "2026-01-02 10:00" Cli.DATETIME_FORMAT = Some "2026-01-02 10:00"
  ∧ strptime "half past ten" Cli.DATETIME_FORMAT = None
  ∧ exit_status (Cli.quick_create "Standup" "2026-01-02 10:00" "half past ten"
                   None None None None Demo.world).1 = 1%Z
  ∧ (Cli.quick_create "Standup" "2026-01-02 10:00" "half past ten"
       None None None None Demo.world).1 = Raise (Exit 1)
  ∧ tool_calls (Cli.quick_create "Standup" "2026-01-02 10:00" "half past ten"
                  None None None None Demo.world).2 = []
  ∧ console (Cli.quick_create "Standup" "2026-01-02 10:00" "half past ten"
               None None None None Demo.world).2
    = [Line "[red]Invalid datetime format:[/red] half past ten (expected YYYY-MM-DD HH:MM)"].
Proof.
  assert (Hk : api_key_set Demo.world).
  { exists "secret". split; [reflexivity | discriminate]. }
  split; [reflexivity|]. split; [reflexivity|].
  destruct (@quick_create_rejects_bad_datetime Demo.ext "Standup" "2026-01-02 10:00" "half past ten"
              None None None None Demo.world (or_intror eq_refl))
    as (Hstatus & Hcalls & _ & _ & Hshown & _).
  split; [exact Hstatus|].
  destruct (Hshown Hk eq_refl) as [Hexit Hconsole].
  split; [exact Hexit|]. split; [exact Hcalls | exact Hconsole].
Defined.

(** A date that holds a closing tag: the message is not shown, and the
    command still ends with status 1, before anything is sent. *)
Example quick_create_tagged_datetime_test :
  (Cli.quick_create "Standup" "[/x]" "2026-01-02 10:30" None None None None Demo.world).1
  = Raise (MarkupError "closing tag '[/x]' doesn't match any open tag")
  ∧ exit_status (Cli.quick_create "Standup" "[/x]" "2026-01-02 10:30"
                   None None None None Demo.world).1 = 1%Z
  ∧ (Cli.quick_create "Standup" "[/x]" "2026-01-02 10:30"
       None None None None Demo.world).2 = Demo.world.
Proof. repeat split. Qed.

Lemma quick_create_timezone_witness :
  api_key_set Demo.bare
  ∧ (Profile.load_user_profile None Demo.bare).1 = Ok None
  ∧ environ Demo.bare !! "CLI_DEFAULT_TIMEZONE" = Some " utc "
  ∧ tool_error Demo.bare = None
  ∧ (∃ payload : gmap string string,
       tool_calls (Cli.quick_create "Standup" "2026-01-02 10:00" "2026-01-02 10:30"
                     None None None None Demo.bare).2
       = [payload]
       ∧ payload !! "timezone" = Some "Etc/UTC")
  ∧ (∃ payload : gmap string string,
       tool_calls (Cli.quick_create "Standup" "2026-01-02 10:00" "2026-01-02 10:30"
                     (Some ("Utc" +:+ Demo.nbsp)) None None None Demo.world).2
       = [payload]
       ∧ payload !! "timezone" = Some "Etc/UTC").
Proof.
  assert (Hk : api_key_set Demo.bare).
  { exists "secret". split; [reflexivity | discriminate]. }
  assert (Hk' : api_key_set Demo.world).
  { exists "secret". split; [reflexivity | discriminate]. }
  split; [exact Hk|]. split; [reflexivity|]. split; [reflexivity|]. split; [reflexivity|].
  split.
  - destruct (@quick_create_timezone Demo.ext "Standup" "2026-01-02 10:00" "2026-01-02 10:30"
                None None None None "2026-01-02 10:00" "2026-01-02 10:30" None Demo.bare
                Hk eq_refl eq_refl eq_refl eq_refl) as (payload & Hcalls & Hutc & _).
    exists payload. split; [exact Hcalls|].
    apply Hutc. vm_compute. tauto.
  - destruct (@quick_create_timezone Demo.ext "Standup" "2026-01-02 10:00" "2026-01-02 10:30"
                (Some ("Utc" +:+ Demo.nbsp)) None None None
                "2026-01-02 10:00" "2026-01-02 10:30" (Some Demo.istanbul) Demo.world
                Hk' eq_refl eq_refl eq_refl eq_refl) as (payload & Hcalls & Hutc & _).
    exists payload. split; [exact Hcalls|].
    apply Hutc. vm_compute. tauto.
Defined.

(** ** The rest of the program at work on the demo worlds *)

Lemma template_writers_keep_files_witness :
  fs Demo.world "user_profile.yaml" ≠ Missing
  ∧ fs (@Templates.write_default_profile_template Demo.ext Fixtures.plain None
          Demo.world).2 "user_profile.yaml"
    = Holds "timezone: Europe/Istanbul".
Proof.
  assert (Hx : fs Demo.world "user_profile.yaml" ≠ Missing) by discriminate.
  split; [exact Hx|].
  destruct (@template_writers_keep_files Demo.ext Fixtures.plain None "user_profile.yaml"
              Demo.world) as (Hkeep & _).
  rewrite (Hkeep (or_introl Hx)). reflexivity.
Defined.

Lemma init_files_load_back_witness :
  fs Demo.bare "system_prompt.md" = Missing
  ∧ @refused Fixtures.plain "system_prompt.md" = None
  ∧ rich_error "System prompt ready: system_prompt.md" = None
  ∧ (@Commands.init_system_prompt Demo.ext Fixtures.plain None Demo.bare).1 = Ok tt
  ∧ (SystemPrompt.load_system_prompt None
       (@Commands.init_system_prompt Demo.ext Fixtures.plain None Demo.bare).2).1
    = Ok (Some (Py.strip Templates.DEFAULT_SYSTEM_PROMPT_TEMPLATE +:+ Py.LF)).
Proof.
  split; [reflexivity|]. split; [reflexivity|]. split; [reflexivity|].
  destruct (@init_files_load_back Demo.ext Fixtures.plain None Demo.bare) as [_ Hs].
  destruct (Hs eq_refl eq_refl) as (_ & Hload & Hok & _).
  split; [exact (proj1 (Hok eq_refl)) | exact Hload].
Defined.

(** A path with a closing tag in it: the file is written, and then the
    command fails on its own message. *)
Example init_tagged_path_test :
  (@Commands.init_system_prompt Demo.ext Fixtures.plain (Some "[/x].md") Demo.bare).1
  = Raise (MarkupError "closing tag '[/x]' doesn't match any open tag")
  ∧ fs (@Commands.init_system_prompt Demo.ext Fixtures.plain (Some "[/x].md") Demo.bare).2
      "[/x].md"
    = Holds (Py.strip Templates.DEFAULT_SYSTEM_PROMPT_TEMPLATE +:+ Py.LF).
Proof. split; reflexivity. Qed.

Lemma init_fails_when_refused_witness :
  fs Demo.bare "/proc/system_prompt.md" = Missing
  ∧ @refused Fixtures.plain "/proc/system_prompt.md" = Some OSError
  ∧ (@Commands.init_system_prompt Demo.ext Fixtures.plain (Some "/proc/system_prompt.md")
       Demo.bare).1 = Raise OSError
  ∧ console (@Commands.init_system_prompt Demo.ext Fixtures.plain
               (Some "/proc/system_prompt.md") Demo.bare).2 = [].
Proof.
  split; [reflexivity|]. split; [reflexivity|].
  destruct (@init_fails_when_refused Demo.ext Fixtures.plain (Some "/proc/system_prompt.md")
              OSError Demo.bare) as [_ Hs].
  destruct (Hs eq_refl eq_refl) as (Hraise & Hconsole & _).
  split; [exact Hraise | exact Hconsole].
Defined.

Lemma init_system_prompt_then_ask_witness :
  fs Demo.bare "system_prompt.md" = Missing
  ∧ @refused Fixtures.plain "system_prompt.md" = None
  ∧ (Cli.ask_system_instructions
       (@Commands.init_system_prompt Demo.ext Fixtures.plain None Demo.bare).2).1
    = Ok (Py.strip Templates.DEFAULT_SYSTEM_PROMPT_TEMPLATE +:+ Py.LF +:+ Py.LF +:+
          Cli.generated_instructions (local_now Demo.bare) (utc_now Demo.bare) "").
Proof.
  split; [reflexivity|]. split; [reflexivity|].
  exact (@init_system_prompt_then_ask Demo.ext Fixtures.plain Demo.bare eq_refl eq_refl).
Defined.

Lemma show_profile_prints_once_witness :
  (Profile.load_user_profile (Some "broken.yaml") Demo.world).1 = Ok None
  ∧ (@Commands.show_profile Demo.ext (Some "broken.yaml") Demo.world).1 = Ok tt
  ∧ console (@Commands.show_profile Demo.ext (Some "broken.yaml") Demo.world).2
    = [Line "No profile found. Run: python -m calendar_cli.cli init-profile"].
Proof.
  split; [reflexivity|].
  destruct (@show_profile_prints_once Demo.ext (Some "broken.yaml") Demo.world)
    as (_ & _ & _ & Hnone & _).
  exact (Hnone eq_refl).
Defined.

Lemma ask_tells_what_show_profile_shows_witness :
  console (@Commands.show_profile Demo.ext None Demo.world).2
  = console Demo.world
    ++ [PanelFit (Profile.summarize_profile_for_system Demo.istanbul)
          "User Profile" "magenta"]
  ∧ ∃ text, (Cli.ask_system_instructions Demo.world).1 = Ok text
            ∧ ends_with text
                (Py.LF +:+ Py.LF +:+ Profile.summarize_profile_for_system Demo.istanbul).
Proof.
  split; [reflexivity|].
  exact (proj1 (@ask_tells_what_show_profile_shows Demo.ext Demo.world) _ eq_refl).
Defined.

Lemma env_info_hides_secrets_witness :
  same_public_environment Demo.world Fixtures.rekeyed
  ∧ environ Demo.world ≠ environ Fixtures.rekeyed
  ∧ (@Commands.env_info Demo.ext Demo.world).1
    = (@Commands.env_info Demo.ext Fixtures.rekeyed).1.
Proof.
  assert (Hs : same_public_environment Demo.world Fixtures.rekeyed).
  { split; [|split; reflexivity]. intros k Hg _.
    cbn [environ Demo.world Fixtures.rekeyed].
    rewrite !lookup_singleton_ne by (intros E; symmetry in E; contradiction).
    reflexivity. }
  split; [exact Hs|]. split.
  - intros E. apply (f_equal (λ m : gmap string string, m !! "GOOGLE_API_KEY")) in E.
    vm_compute in E. discriminate E.
  - destruct (@env_info_hides_secrets Demo.ext Demo.world Fixtures.rekeyed Hs)
      as (t & H1 & H2 & _).
    rewrite H1, H2. reflexivity.
Defined.

Lemma env_info_shows_effective_settings_witness :
  api_key_set Demo.bare
  ∧ (Profile.load_user_profile None Demo.bare).1 = Ok None
  ∧ tool_error Demo.bare = None
  ∧ given (Some "") = None
  ∧ ∃ (t : table) (payload : gmap string string),
      (@Commands.env_info Demo.ext Demo.bare).1 = Ok t
      ∧ table_cell t "CLI_DEFAULT_TIMEZONE" = Some " utc "
      ∧ tool_calls (Cli.quick_create "Standup" "2026-01-02 10:00" "2026-01-02 10:30"
                      (Some "") None None None Demo.bare).2
        = [payload]
      ∧ payload !! "timezone" = Some "Etc/UTC".
Proof.
  assert (Hk : api_key_set Demo.bare).
  { exists "secret". split; [reflexivity | discriminate]. }
  split; [exact Hk|]. split; [reflexivity|]. split; [reflexivity|]. split; [reflexivity|].
  destruct (@env_info_shows_effective_settings Demo.ext Fixtures.plain "Standup"
              "2026-01-02 10:00" "2026-01-02 10:30" (Some "") None None None
              "2026-01-02 10:00" "2026-01-02 10:30" None Demo.bare)
    as (t & model & zone & Ht & _ & Hz & _ & Hq).
  destruct (Hq Hk eq_refl eq_refl eq_refl eq_refl eq_refl eq_refl)
    as (payload & Hcalls & Htz).
  assert (Ht' := Ht). vm_compute in Ht'. injection Ht' as <-.
  vm_compute in Hz. injection Hz as <-.
  eexists _, payload. split; [exact Ht|]. split; [reflexivity|].
  split; [exact Hcalls|]. rewrite Htz. reflexivity.
Defined.

Lemma commands_exit_without_api_key_witness :
  ¬ api_key_set Fixtures.keyless
  ∧ (Cli.ask (Some "hi") ["exit"] Fixtures.keyless).1 = Raise (Exit 1)
  ∧ submissions (Cli.ask (Some "hi") ["exit"] Fixtures.keyless).2 = []
  ∧ (@Commands.list_calendars Demo.ext Fixtures.two Fixtures.keyless).1 = Raise (Exit 1).
Proof.
  assert (Hno : ¬ api_key_set Fixtures.keyless).
  { intros (k & Hk & _). vm_compute in Hk. discriminate Hk. }
  split; [exact Hno|].
  destruct (@commands_exit_without_api_key Demo.ext Fixtures.two (Some "hi") ["exit"]
              "Standup" "2026-01-02 10:00" "2026-01-02 10:30" None None None None
              Fixtures.keyless Hno) as (Hask & _ & _ & Hlist).
  rewrite Hask, Hlist. repeat split.
Defined.

Lemma list_calendars_unparsed_witness :
  api_key_set Demo.world
  ∧ @get_calendars_info Fixtures.plain = Ok (PStr "no calendars today")
  ∧ (∀ cals, @loaded_data Fixtures.plain (PStr "no calendars today") ≠ PList cals)
  ∧ @Commands.list_calendars Demo.ext Fixtures.plain Demo.world
    = (Ok (mkTable "Calendars" ["Summary"; "ID"] [["(unparsed)"; "no calendars today"]]),
       Demo.world).
Proof.
  assert (Hk : api_key_set Demo.world).
  { exists "secret". split; [reflexivity | discriminate]. }
  assert (Hn : ∀ cals, @loaded_data Fixtures.plain (PStr "no calendars today") ≠ PList cals).
  { intros cals E. vm_compute in E. discriminate E. }
  split; [exact Hk|]. split; [reflexivity|]. split; [exact Hn|].
  exact (@list_calendars_unparsed Demo.ext Fixtures.plain (PStr "no calendars today")
           Demo.world Hk eq_refl Hn).
Defined.

Lemma list_calendars_rows_witness :
  api_key_set Demo.world
  ∧ @loaded_data Fixtures.two (PStr "two calendars")
    = PList (map PDict [ [("summary", PStr "Work"); ("id", PStr "work@example.org")];
                         [("id", PStr "home@example.org")] ])
  ∧ @Commands.list_calendars Demo.ext Fixtures.two Demo.world
    = (Ok (mkTable "Calendars" ["Summary"; "ID"]
             [ ["Work"; "work@example.org"]; [""; "home@example.org"] ]),
       Demo.world).
Proof.
  assert (Hk : api_key_set Demo.world).
  { exists "secret". split; [reflexivity | discriminate]. }
  split; [exact Hk|]. split; [reflexivity|].
  exact (@list_calendars_rows Demo.ext Fixtures.two (PStr "two calendars")
           [ [("summary", PStr "Work"); ("id", PStr "work@example.org")];
             [("id", PStr "home@example.org")] ]
           Demo.world Hk eq_refl eq_refl).
Defined.

Lemma list_calendars_stranger_witness :
  api_key_set Demo.world
  ∧ @loaded_data Fixtures.broken (PStr "a broken list") = PList [PDict []; PStr "oops"]
  ∧ Exists (fun v => is_dict v = false) [PDict []; PStr "oops"]
  ∧ @Commands.list_calendars Demo.ext Fixtures.broken Demo.world
    = (Raise (RuntimeException "AttributeError"), Demo.world).
Proof.
  assert (Hk : api_key_set Demo.world).
  { exists "secret". split; [reflexivity | discriminate]. }
  assert (Hex : Exists (fun v => is_dict v = false) [PDict []; PStr "oops"]).
  { apply Exists_cons_tl. apply Exists_cons_hd. reflexivity. }
  split; [exact Hk|]. split; [reflexivity|]. split; [exact Hex|].
  exact (@list_calendars_stranger Demo.ext Fixtures.broken (PStr "a broken list") _
           Demo.world Hk eq_refl eq_refl Hex).
Defined.

Lemma ask_opens_with_typed_or_default_witness :
  api_key_set Demo.world
  ∧ executor_error Demo.world = None
  ∧ ∃ (si : string) (later : list (list message)),
      (Cli.ask_system_instructions Demo.world).1 = Ok si
      ∧ submissions (Cli.ask None [""; "exit"] Demo.world).2
        = submissions Demo.world
          ++ [Tuple "system" si; Tuple "user" Cli.DEFAULT_PROMPT] :: later.
Proof.
  assert (Hk : api_key_set Demo.world).
  { exists "secret". split; [reflexivity | discriminate]. }
  split; [exact Hk|]. split; [reflexivity|].
  exact (proj1 (@ask_opens_with_typed_or_default Demo.ext None "" ["exit"] Demo.world Hk
                  (or_introl eq_refl)) eq_refl).
Defined.


Lemma quick_create_payload_fields_witness :
  api_key_set Demo.world
  ∧ tool_error Demo.world = None
  ∧ ∃ payload : gmap string string,
      tool_calls (Cli.quick_create "Standup" "2026-01-02 10:00" "2026-01-02 10:30"
                    None (Some "Room 1") (Some "") None Demo.world).2
      = [payload]
      ∧ payload !! "start_datetime" = Some "2026-01-02 10:00:00"
      ∧ payload !! "location" = Some "Room 1"
      ∧ payload !! "description" = None
      ∧ payload !! "color_id" = None.
Proof.
  assert (Hk : api_key_set Demo.world).
  { exists "secret". split; [reflexivity | discriminate]. }
  split; [exact Hk|]. split; [reflexivity|].
  destruct (proj1 (@quick_create_payload_fields Demo.ext "Standup" "2026-01-02 10:00"
                     "2026-01-02 10:30" None (Some "Room 1") (Some "") None
                     "2026-01-02 10:00" "2026-01-02 10:30" Demo.world Hk eq_refl eq_refl)
              eq_refl)
    as (payload & Hcalls & _ & Hstart & _ & _ & Hloc & Hdesc & Hcol & _).
  exists payload. repeat split; assumption.
Defined.

Lemma preview_banner_prints_once_witness :
  @figlet_fonts Fixtures.plain = Ok ["standard"; "slant"]
  ∧ ("gothic" ∉ ["standard"; "slant"])
  ∧ rich_error "[red]Unknown font:[/red] gothic" = None
  ∧ @Commands.preview_banner Demo.ext Fixtures.plain "gothic" "cyan" Demo.world
    = (Ok tt,
       with_console Demo.world
         (console Demo.world ++ [Line "[red]Unknown font:[/red] gothic"])).
Proof.
  assert (Hno : "gothic" ∉ ["standard"; "slant"]).
  { rewrite !not_elem_of_cons. repeat split; try discriminate. apply not_elem_of_nil. }
  split; [reflexivity|]. split; [exact Hno|]. split; [reflexivity|].
  destruct (@preview_banner_prints_once Demo.ext Fixtures.plain "gothic" "cyan" Demo.world)
    as (_ & Hunknown & _).
  exact (Hunknown _ eq_refl Hno eq_refl).
Defined.

(** A font whose name holds a closing tag: the line about the unknown
    font fails, and so does the line about that failure. *)
Example preview_banner_tagged_font_test :
  (@Commands.preview_banner Demo.ext Fixtures.plain "[/x]" "cyan" Demo.world).1
  = Raise (MarkupError "closing tag '[/x]' doesn't match any open tag")
  ∧ console (@Commands.preview_banner Demo.ext Fixtures.plain "[/x]" "cyan" Demo.world).2
    = [].
Proof. split; reflexivity. Qed.
